(** * The multi-step research orchestrator

    A shallow embedding of
    [supabase/functions/perplexity-research/index.ts] (the step handler, the
    three provider adapters, the cross-reference synthesizer and the final
    report builder) and of the loop of [executeMultiStepResearch] that calls
    the handler once per step.

    JavaScript numbers are modelled by rationals ([Q]) where the code does
    arithmetic on fractions and by integers ([Z]) where it counts.  What the
    network, the clock and [Math.random] answer is an input of the model
    (the record [World]). *)

From Stdlib Require Import ZArith QArith Qminmax List String Bool Lia Lqa.
From Stdlib Require Import DecimalString DecimalNat DecimalFacts.
Import ListNotations.

Open Scope string_scope.

(** ** JavaScript values, as far as the handler looks at them *)

Module Js.

(** What an [async] function or an awaited promise gives: a value, or a
    thrown error, of which the handler only reads [message]. *)
Inductive outcome (A : Type) : Type :=
| Returned (a : A)
| Thrown (message : string).

Arguments Returned {A} a.
Arguments Thrown {A} message.

(** A value read from a JSON body.  The handler never looks inside an object
    or an array it uses as a property key or as a url; [JObj] keeps only
    what converting it to a string gives: a string, or a thrown [TypeError]
    (as for an object with an own [toString] that is no function). *)
Inductive value : Type :=
| Undefined
| Null
| JBool (b : bool)
| JNum (q : Q)
| JStr (s : string)
| JObj (to_string : outcome string).

Definition is_empty (s : string) : bool :=
  match s with
  | EmptyString => true
  | String _ _ => false
  end.

(** [!!v] *)
Definition truthy (v : value) : bool :=
  match v with
  | Undefined | Null => false
  | JBool b => b
  | JNum q => negb (Qeq_bool q 0)
  | JStr s => negb (is_empty s)
  | JObj _ => true
  end.

(** [typeof v === "string"] *)
Definition is_string (v : value) : bool :=
  match v with
  | JStr _ => true
  | _ => false
  end.

(** [a || b] *)
Definition or_else (a b : value) : value :=
  if truthy a then a else b.

(** [z || 0] on a number. *)
Definition or_zero (z : Z) : Z :=
  if (z =? 0)%Z then 0%Z else z.

Definition bind {A B : Type} (m : outcome A) (k : A -> outcome B) : outcome B :=
  match m with
  | Returned a => k a
  | Thrown e => Thrown e
  end.

(** [try { body } catch (error) { handle(error.message) }] *)
Definition try_catch {A : Type} (body : outcome A) (handle : string -> A) : A :=
  match body with
  | Returned a => a
  | Thrown e => handle e
  end.

(** [await Promise.all([a, b])]: both calls have been started; the join
    gives both values, or throws the rejection that happened first.
    [b_first] says whether the second promise settled before the first. *)
Definition promise_all {A B : Type} (b_first : bool)
  (a : outcome A) (b : outcome B) : outcome (A * B) :=
  match a, b with
  | Returned x, Returned y => Returned (x, y)
  | Thrown e, Returned _ => Thrown e
  | Returned _, Thrown e => Thrown e
  | Thrown ea, Thrown eb => Thrown (if b_first then eb else ea)
  end.

(** Decimal text of an integer, as in a template literal. *)
Definition number_to_string (z : Z) : string :=
  NilZero.string_of_int (Z.to_int z).

(** The array index a number denotes as a property key, if any: keys of
    negative or fractional numbers name no element. *)
Definition index_of_number (q : Q) : option nat :=
  if ((Qnum q mod Zpos (Qden q) =? 0) && (0 <=? Qnum q))%Z
  then Some (Z.to_nat (Qnum q / Zpos (Qden q)))
  else None.

(** The array index a string denotes as a property key: a canonical decimal
    numeral only (["1"] is an index, ["01"] is not). *)
Definition index_of_string (s : string) : option nat :=
  match NilZero.uint_of_string s with
  | Some u =>
      if String.eqb (NilZero.string_of_uint (Nat.to_uint (Nat.of_uint u))) s
      then Some (Nat.of_uint u)
      else None
  | None => None
  end.

(** What [array[key]] finds on an array of strings. *)
Inductive member : Type :=
| Element (s : string)     (* an own element *)
| OwnLength (n : Z)        (* the own property [length] *)
| Inherited (name : string) (* a method or accessor of the prototype chain *)
| Missing.                 (* [undefined] *)

Section PropertyAccess.

(** The names that the prototype chain of an array defines in the runtime
    at hand ([map], [constructor], ...). *)
Variable proto : string -> bool.

Definition get_element (xs : list string) (n : nat) : member :=
  match nth_error xs n with
  | Some s => Element s
  | None => Missing
  end.

Definition get_named (xs : list string) (name : string) : member :=
  match index_of_string name with
  | Some n => get_element xs n
  | None =>
      if String.eqb name "length" then OwnLength (Z.of_nat (List.length xs))
      else if proto name then Inherited name
      else Missing
  end.

(** [xs[key]]: the key is converted to a property key first, which throws
    for an object that has no string conversion. *)
Definition get (xs : list string) (key : value) : outcome member :=
  match key with
  | JNum q =>
      match index_of_number q with
      | Some n => Returned (get_element xs n)
      | None => Returned Missing
      end
  | JStr s => Returned (get_named xs s)
  | Undefined => Returned (get_named xs "undefined")
  | Null => Returned (get_named xs "null")
  | JBool true => Returned (get_named xs "true")
  | JBool false => Returned (get_named xs "false")
  | JObj (Returned s) => Returned (get_named xs s)
  | JObj (Thrown e) => Thrown e
  end.

End PropertyAccess.

(** [Math.random]: the generator is a stream of numbers of [0, 1); a call
    takes the head and leaves the tail. *)
Definition rng : Type := nat -> Q.

Definition Math_random (g : rng) : Q * rng :=
  (g 0%nat, fun n => g (S n)).

Definition in_unit_interval (g : rng) : Prop :=
  forall n, (0 <= g n /\ g n < 1)%Q.

End Js.

Import Js.

(** ** Data model *)

(** A citation of a search-provider response.  Only the fields the adapter
    reads or writes are kept. *)
Record Citation : Type := mkCitation {
  url : value;
  source : value;
  relevanceScore : option Q;
  trustScore : option Q;
  category : value
}.

Record Usage : Type := mkUsage {
  total_tokens : option Z
}.

(** The JSON body of a provider's answer.  The handler reads [citations]
    (an array when present) and [usage]; the rest is carried along as text. *)
Record ProviderResponse : Type := mkProviderResponse {
  citations : option (list Citation);
  usage : option Usage;
  content : string
}.

Record CrossReference : Type := mkCrossReference {
  cr_type : string;
  cr_confidence : Q;
  cr_sources : list string;
  cr_description : string
}.

(** The [metadata] object of each of the five results. *)
Inductive Metadata : Type :=
| MetaInitial (sourcesFound tokensUsed : Z) (confidence : Q)
| MetaAnalysis (conceptsAnalyzed connectionsFound : Z) (confidence : Q)
| MetaTagging (tagsGenerated categoriesCreated : Z) (confidence : Q)
| MetaSynthesis (factsValidated contradictionsResolved : Z) (finalConfidence : Q)
| MetaReport (totalSources totalTokens : Z) (researchQuality : Q).

(** [metadata.confidence] *)
Definition confidence_of (m : Metadata) : option Q :=
  match m with
  | MetaInitial _ _ c | MetaAnalysis _ _ c | MetaTagging _ _ c => Some c
  | MetaSynthesis _ _ _ | MetaReport _ _ _ => None
  end.

Record StepSummary : Type := mkStepSummary {
  sum_step : option Z;
  sum_service : option string;
  sum_confidence : Q
}.

Record QualityMetrics : Type := mkQualityMetrics {
  factualAccuracy : Q;
  sourceReliability : Q;
  analysisDepth : Q;
  synthesisQuality : Q
}.

Record KnowledgeGraph : Type := mkKnowledgeGraph {
  nodes : list string;
  edges : list string;
  topics : list string
}.

Record FinalReport : Type := mkFinalReport {
  query : value;
  timestamp : string;
  totalSources : Z;
  totalTokens : Z;
  researchSteps : list StepSummary;
  keyFindings : list string;
  knowledgeGraph : KnowledgeGraph;
  qualityMetrics : QualityMetrics;
  recommendations : list string
}.

(** The [data] of a result: a provider's answer (steps 0 to 2), the bundle of
    step 3, or the report of step 4. *)
Inductive StepPayload : Type :=
| ProviderData (r : ProviderResponse)
| SynthesisData (validation synthesis : ProviderResponse)
    (crossReferences : list CrossReference)
| ReportData (report : FinalReport).

(** [data.citations] *)
Definition payload_citations (d : StepPayload) : option (list Citation) :=
  match d with
  | ProviderData r => citations r
  | SynthesisData _ _ _ | ReportData _ => None
  end.

(** [data.usage] *)
Definition payload_usage (d : StepPayload) : option Usage :=
  match d with
  | ProviderData r => usage r
  | SynthesisData _ _ _ | ReportData _ => None
  end.

(** An element of [previousData] as the handler reads it: every field may
    be absent. *)
Module StepData.

Record t : Type := mk {
  step : option Z;
  service : option string;
  data : option StepPayload;
  metadata : option Metadata
}.

(** The object [{}]. *)
Definition empty : t := mk None None None None.

End StepData.

(** The history the caller threads through the steps; [None] is [null]. *)
Definition History : Type := option (list StepData.t).

(** The result of a step.  [previousData] is [None] both where the key is
    absent (step 0) and where the caller sent [null]. *)
Record StepResult : Type := mkStepResult {
  step : Z;
  stepName : string;
  service : string;
  data : StepPayload;
  previousData : History;
  nextStep : option Z;
  progress : Z;
  aiThoughts : list string;
  metadata : Metadata
}.

(** A result as it comes back to the caller through JSON. *)
Definition toStepData (r : StepResult) : StepData.t :=
  StepData.mk (Some (step r)) (Some (service r)) (Some (data r))
    (Some (metadata r)).

Record RequestBody : Type := mkRequestBody {
  req_query : value;
  req_step : value;          (* [Undefined] when the key is absent *)
  req_previousData : History
}.

Record Request : Type := mkRequest {
  method : string;
  json : outcome RequestBody  (* [await req.json()] *)
}.

Inductive Body : Type :=
| BodyText (text : string)
| BodyError (error : string)       (* [{ error: message }] *)
| BodyEmpty                        (* [{}] *)
| BodyResult (result : StepResult).

Record Response : Type := mkResponse {
  status : Z;
  body : Body
}.

(** ** The environment of one invocation *)

(** What [fetch] gives: a rejection (transport failure) or an HTTP answer,
    whose body [response.json()] parses or fails to parse. *)
Inductive FetchResult : Type :=
| NetworkError (message : string)
| HttpAnswer (code : Z) (parsed : outcome ProviderResponse).

(** [response.ok] *)
Definition response_ok (code : Z) : bool :=
  ((200 <=? code) && (code <=? 299))%Z.

(** Each invocation calls an adapter at most once, so the environment holds
    one answer per adapter. *)
Record World : Type := mkWorld {
  perplexity_fetch : FetchResult;
  gemini_fetch : FetchResult;
  openai_fetch : FetchResult;
  gemini_settles_first : bool;   (* order of the two calls of step 3 *)
  random : rng;
  now : string                   (* [new Date().toISOString()] *)
}.

Declare Scope outcome_scope.
Delimit Scope outcome_scope with outcome.
Notation "x <- m ;; k" := (bind m (fun x => k))
  (at level 61, m at next level, right associativity) : outcome_scope.
Notation "' ( x , y ) <- m ;; k" := (bind m (fun p => let '(x, y) := p in k))
  (at level 61, x name, y name, m at next level, right associativity)
  : outcome_scope.

(** ** Provider adapters *)

(** [await fetch(...)] followed by the [response.ok] test and
    [await response.json()], shared by the three adapters; [provider] is the
    name in the error message. *)
Definition fetch_json (provider : string) (answer : FetchResult)
  : outcome ProviderResponse :=
  match answer with
  | NetworkError message => Thrown message
  | HttpAnswer code parsed =>
      if negb (response_ok code)
      then Thrown (provider ++ " API error: " ++ number_to_string code)
      else parsed
  end.

(** The callback of [result.citations.map]: it draws the relevance jitter
    [r1], then the trust jitter [r2].  The scores are exact rationals; the
    source computes them in binary64, within rounding of these values. *)
Definition enhance_citation (index : nat) (r1 r2 : Q) (citation : Citation)
  : Citation :=
  {| url :=
       if negb (truthy (url citation)) || negb (is_string (url citation))
       then JStr "#"
       else url citation;
     source := source citation;
     relevanceScore :=
       Some (Qmax 0.3 (1 - inject_Z (Z.of_nat index) * 0.1 + (r1 * 0.2 - 0.1)));
     trustScore := Some (Qmax 0.4 (0.9 - r2 * 0.3));
     category := or_else (source citation) (JStr "web") |}.

(** [result.citations.map(...)], from position [index] on, threading the
    random generator. *)
Fixpoint enhance_citations (g : rng) (index : nat) (cs : list Citation)
  : list Citation * rng :=
  match cs with
  | [] => ([], g)
  | citation :: rest =>
      let (r1, g1) := Math_random g in
      let (r2, g2) := Math_random g1 in
      let (rest', g') := enhance_citations g2 (S index) rest in
      (enhance_citation index r1 r2 citation :: rest', g')
  end.

(** The post-processing at the end of [callPerplexity]. *)
Definition enhance (g : rng) (result : ProviderResponse) : ProviderResponse :=
  match citations result with
  | Some cs =>
      {| citations := Some (fst (enhance_citations g 0 cs));
         usage := usage result;
         content := content result |}
  | None => result
  end.

(** The request sent upstream is not modelled: its answer is an input. *)
Definition callPerplexity (w : World) (query : value) (systemMessage : string)
  : outcome ProviderResponse :=
  (result <- fetch_json "Perplexity" (perplexity_fetch w) ;;
   Returned (enhance (random w) result))%outcome.

Definition callGemini (w : World) (query : value) (previousData : History)
  (systemMessage : string) : outcome ProviderResponse :=
  fetch_json "Gemini" (gemini_fetch w).

Definition callOpenAI (w : World) (query : value) (previousData : History)
  (systemMessage : string) : outcome ProviderResponse :=
  fetch_json "OpenAI" (openai_fetch w).

(** ** Cross-reference synthesizer and final report builder *)

Definition cross_reference_catalog : list CrossReference :=
  [ {| cr_type := "fact_verification";
       cr_confidence := 0.92;
       cr_sources := ["Perplexity"; "Gemini"];
       cr_description := "Факты подтверждены несколькими источниками" |};
    {| cr_type := "semantic_consistency";
       cr_confidence := 0.88;
       cr_sources := ["Gemini"; "OpenAI"];
       cr_description := "Семантическая согласованность анализа" |};
    {| cr_type := "classification_accuracy";
       cr_confidence := 0.95;
       cr_sources := ["OpenAI"; "Perplexity"];
       cr_description := "Точность классификации и тегирования" |} ].

Definition generateCrossReferences (data : History) : list CrossReference :=
  match data with
  | None => []                      (* [if (!data) return [];] *)
  | Some _ => cross_reference_catalog
  end.

Definition initial_report (w : World) (query : value) : FinalReport :=
  {| query := query;
     timestamp := now w;
     totalSources := 0;
     totalTokens := 0;
     researchSteps := [];
     keyFindings := [];
     knowledgeGraph := {| nodes := []; edges := []; topics := [] |};
     qualityMetrics :=
       {| factualAccuracy := 0.95;
          sourceReliability := 0.88;
          analysisDepth := 0.92;
          synthesisQuality := 0.9 |};
     recommendations :=
       [ "Рекомендуется дальнейшее исследование выявленных трендов";
         "Необходимо мониторить изменения в ключевых источниках";
         "Полезно расширить анализ смежных тематик" ] |}.

Definition add_sources (n : Z) (report : FinalReport) : FinalReport :=
  {| query := query report; timestamp := timestamp report;
     totalSources := totalSources report + n;
     totalTokens := totalTokens report;
     researchSteps := researchSteps report;
     keyFindings := keyFindings report;
     knowledgeGraph := knowledgeGraph report;
     qualityMetrics := qualityMetrics report;
     recommendations := recommendations report |}.

Definition add_tokens (n : Z) (report : FinalReport) : FinalReport :=
  {| query := query report; timestamp := timestamp report;
     totalSources := totalSources report;
     totalTokens := totalTokens report + n;
     researchSteps := researchSteps report;
     keyFindings := keyFindings report;
     knowledgeGraph := knowledgeGraph report;
     qualityMetrics := qualityMetrics report;
     recommendations := recommendations report |}.

Definition push_step (s : StepSummary) (report : FinalReport) : FinalReport :=
  {| query := query report; timestamp := timestamp report;
     totalSources := totalSources report;
     totalTokens := totalTokens report;
     researchSteps := researchSteps report ++ [s];
     keyFindings := keyFindings report;
     knowledgeGraph := knowledgeGraph report;
     qualityMetrics := qualityMetrics report;
     recommendations := recommendations report |}.

(** [stepData.metadata?.confidence || 0.8] *)
Definition step_confidence (stepData : StepData.t) : Q :=
  match StepData.metadata stepData with
  | Some m =>
      match confidence_of m with
      | Some c => if Qeq_bool c 0 then 0.8 else c
      | None => 0.8
      end
  | None => 0.8
  end.

(** The body of the [forEach] callback, on the report the loop mutates. *)
Definition aggregate_step (report : FinalReport) (stepData : StepData.t)
  : FinalReport :=
  let report1 :=
    match StepData.data stepData with
    | Some d =>
        match payload_citations d with
        | Some cs => add_sources (Z.of_nat (List.length cs)) report
        | None => report
        end
    | None => report
    end in
  let report2 :=
    match StepData.data stepData with
    | Some d =>
        match payload_usage d with
        | Some u =>
            add_tokens
              (match total_tokens u with Some n => or_zero n | None => 0%Z end)
              report1
        | None => report1
        end
    | None => report1
    end in
  push_step
    {| sum_step := StepData.step stepData;
       sum_service := StepData.service stepData;
       sum_confidence := step_confidence stepData |}
    report2.

Definition generateFinalReport (w : World) (query : value) (allData : History)
  : FinalReport :=
  match allData with
  | Some steps => fold_left aggregate_step steps (initial_report w query)
  | None => initial_report w query
  end.

(** ** The step handler *)

Definition researchSteps_names : list string :=
  [ "initial_research"; "deep_analysis"; "classification_tagging";
    "synthesis_validation"; "final_report" ].

(** [m || "initial_research"] *)
Definition or_initial_research (m : member) : member :=
  match m with
  | Element s => if is_empty s then Element "initial_research" else m
  | OwnLength n => if (n =? 0)%Z then Element "initial_research" else m
  | Inherited _ => m
  | Missing => Element "initial_research"
  end.

(** [currentStep === name] *)
Definition is_step (currentStep : member) (name : string) : bool :=
  match currentStep with
  | Element s => String.eqb s name
  | _ => false
  end.

Definition initial_research (w : World) (query : value) : outcome Body :=
  (perplexityResponse <-
     callPerplexity w query
       "Вы - исследовательский ассистент первого уровня. Проведите начальное исследование по запросу, найдите основные источники и создайте базовую структуру знаний. Предоставьте детальные цитаты и источники. Ваши результаты будут переданы для дальнейшего анализа в Gemini и OpenAI." ;;
   Returned (BodyResult
     {| step := 0;
        stepName := "Начальное исследование";
        service := "Perplexity";
        data := ProviderData perplexityResponse;
        previousData := None;
        nextStep := Some 1%Z;
        progress := 20;
        aiThoughts :=
          [ "🔍 Анализирую запрос пользователя...";
            "📡 Сканирую доступные источники информации...";
            "🎯 Определяю ключевые темы для исследования...";
            "📊 Собираю первичные данные из надежных источников...";
            "🔗 Создаю базовую структуру знаний..." ];
        metadata :=
          MetaInitial
            (match citations perplexityResponse with
             | Some cs => or_zero (Z.of_nat (List.length cs))
             | None => 0%Z
             end)
            (match usage perplexityResponse with
             | Some u =>
                 match total_tokens u with
                 | Some n => or_zero n
                 | None => 0%Z
                 end
             | None => 0%Z
             end)
            0.75 |}))%outcome.

Definition deep_analysis (w : World) (query : value) (prev : History)
  : outcome Body :=
  (geminiResponse <-
     callGemini w query prev
       "Вы - аналитик второго уровня. Проанализируйте данные от Perplexity, проведите глубокий семантический анализ, выявите скрытые связи и паттерны. Создайте детальную аналитическую структуру для передачи в OpenAI." ;;
   Returned (BodyResult
     {| step := 1;
        stepName := "Глубокий анализ";
        service := "Gemini";
        data := ProviderData geminiResponse;
        previousData := prev;
        nextStep := Some 2%Z;
        progress := 40;
        aiThoughts :=
          [ "🧠 Получаю данные от Perplexity для анализа...";
            "🔬 Провожу семантический анализ содержимого...";
            "🕸️ Выявляю скрытые связи между концепциями...";
            "📈 Анализирую тренды и паттерны в данных...";
            "🎭 Определяю контекстуальные нюансы...";
            "🔄 Подготавливаю структурированные данные для OpenAI..." ];
        metadata := MetaAnalysis 15 8 0.85 |}))%outcome.

Definition classification_tagging (w : World) (query : value) (prev : History)
  : outcome Body :=
  (openaiResponse <-
     callOpenAI w query prev
       "Вы - специалист по классификации и тегированию третьего уровня. Используйте данные от Perplexity и анализ от Gemini для создания детальной системы тегов, классификации информации и структурирования знаний." ;;
   Returned (BodyResult
     {| step := 2;
        stepName := "Классификация и тегирование";
        service := "OpenAI GPT-4";
        data := ProviderData openaiResponse;
        previousData := prev;
        nextStep := Some 3%Z;
        progress := 65;
        aiThoughts :=
          [ "🏷️ Получаю обработанные данные от Gemini...";
            "📋 Создаю систему классификации для информации...";
            "🎯 Генерирую релевантные теги для каждого концепта...";
            "📊 Структурирую данные по категориям важности...";
            "🔍 Выделяю ключевые инсайты и выводы...";
            "🌐 Создаю граф знаний с тегированными узлами..." ];
        metadata := MetaTagging 25 6 0.9 |}))%outcome.

Definition synthesis_validation (w : World) (query : value) (prev : History)
  : outcome Body :=
  ('(perplexityValidation, geminiSynthesis) <-
     promise_all (gemini_settles_first w)
       (callPerplexity w query
          "Проведите валидацию и проверку фактов для финальных результатов исследования. Убедитесь в точности и актуальности информации.")
       (callGemini w query prev
          "Синтезируйте все данные от предыдущих этапов в единую когерентную структуру знаний. Создайте финальные выводы и рекомендации.") ;;
   Returned (BodyResult
     {| step := 3;
        stepName := "Синтез и валидация";
        service := "Multi-AI (Perplexity + Gemini)";
        data :=
          SynthesisData perplexityValidation geminiSynthesis
            (generateCrossReferences prev);
        previousData := prev;
        nextStep := Some 4%Z;
        progress := 85;
        aiThoughts :=
          [ "🔄 Синтезирую данные от всех AI-сервисов...";
            "✅ Провожу кросс-валидацию фактов через Perplexity...";
            "🧬 Объединяю анализ от Gemini в единую структуру...";
            "🎯 Выявляю противоречия и устраняю неточности...";
            "📊 Создаю финальную оценку достоверности...";
            "🌟 Формирую ключевые инсайты и выводы..." ];
        metadata := MetaSynthesis 45 3 0.95 |}))%outcome.

Definition final_report (w : World) (query : value) (prev : History)
  : outcome Body :=
  let finalReport := generateFinalReport w query prev in
  Returned (BodyResult
    {| step := 4;
       stepName := "Финальный отчет";
       service := "Research Orchestrator";
       data := ReportData finalReport;
       previousData := prev;
       nextStep := None;
       progress := 100;
       aiThoughts :=
         [ "📋 Компилирую финальный исследовательский отчет...";
           "📊 Интегрирую все данные и анализ...";
           "🎨 Создаю визуализации и графы знаний...";
           "📈 Генерирую метрики качества исследования...";
           "✨ Финализирую презентацию результатов...";
           "🎯 Исследование завершено успешно!" ];
       metadata :=
         MetaReport (or_zero (totalSources finalReport))
           (or_zero (totalTokens finalReport)) 0.98 |}).

(** A POST request whose body parses to the three fields. *)
Definition post (query step : value) (previousData : History) : Request :=
  {| method := "POST";
     json :=
       Returned
         {| req_query := query;
            req_step := step;
            req_previousData := previousData |} |}.

Section Handler.

Variable proto : string -> bool.

(** The chain of [if (currentStep === ...)]; where no branch is taken
    [result] stays [{}]. *)
Definition run_step (w : World) (currentStep : member) (query : value)
  (prev : History) : outcome Body :=
  if is_step currentStep "initial_research" then initial_research w query
  else if is_step currentStep "deep_analysis" then deep_analysis w query prev
  else if is_step currentStep "classification_tagging"
       then classification_tagging w query prev
  else if is_step currentStep "synthesis_validation"
       then synthesis_validation w query prev
  else if is_step currentStep "final_report" then final_report w query prev
  else Returned BodyEmpty.

(** The destructuring default [step = 0]. *)
Definition step_or_default (s : value) : value :=
  match s with
  | Undefined => JNum 0
  | _ => s
  end.

(** The function given to [Deno.serve]. *)
Definition handler (w : World) (req : Request) : Response :=
  if String.eqb (method req) "OPTIONS" then mkResponse 200 (BodyText "ok")
  else
    try_catch
      (b <- json req ;;
       if negb (truthy (req_query b))
       then Returned (mkResponse 400 (BodyError "Query is required"))
       else
         found <-
           Js.get proto researchSteps_names (step_or_default (req_step b)) ;;
         let currentStep := or_initial_research found in
         result <- run_step w currentStep (req_query b) (req_previousData b) ;;
         Returned (mkResponse 200 result))%outcome
      (fun message => mkResponse 500 (BodyError message)).

(** ** The caller's loop over the five steps *)

(** [supabase.functions.invoke] with the body of the loop. *)
Definition invoke (w : World) (query : string) (stepIndex : nat)
  (allStepData : list StepData.t) : Response :=
  handler w
    (post (JStr query) (JNum (inject_Z (Z.of_nat stepIndex)))
       (match allStepData with
        | [] => None                 (* [length > 0 ? allStepData : null] *)
        | _ :: _ => Some allStepData
        end)).

(** [invoke] reports an error for every status outside 200..299. *)
Definition invoke_failed (r : Response) : bool :=
  negb (response_ok (status r)).

(** One turn of the loop: on success the data is pushed, on failure the
    [catch] logs and the loop goes on with the history unchanged. *)
Definition loop_turn (w : World) (query : string) (stepIndex : nat)
  (allStepData : list StepData.t) : list StepData.t :=
  let r := invoke w query stepIndex allStepData in
  if invoke_failed r then allStepData
  else
    match body r with
    | BodyResult result => allStepData ++ [toStepData result]
    | _ => allStepData ++ [StepData.empty]
    end.

(** The loop [for (stepIndex = from; stepIndex < from + turns; stepIndex++)];
    [worlds] gives the environment of each invocation.  It returns the
    invocations made, in order, and the final [allStepData]. *)
Fixpoint loop (worlds : nat -> World) (query : string) (turns from : nat)
  (allStepData : list StepData.t)
  : list (nat * Response) * list StepData.t :=
  match turns with
  | O => ([], allStepData)
  | S turns' =>
      let r := invoke (worlds from) query from allStepData in
      let (calls, final) :=
        loop worlds query turns' (S from)
          (loop_turn (worlds from) query from allStepData) in
      ((from, r) :: calls, final)
  end.

Definition executeMultiStepResearch (worlds : nat -> World) (query : string)
  : list (nat * Response) * list StepData.t :=
  loop worlds query 5 0 [].

End Handler.

(** ** Vocabulary of the properties *)

Definition error_of {A : Type} (o : outcome A) : option string :=
  match o with
  | Returned _ => None
  | Thrown e => Some e
  end.

(** The error, if any, of the adapter call or calls that step [stepIndex]
    makes: one call for steps 0 to 2, the join of two for step 3, none for
    step 4. *)
Definition adapter_error (w : World) (stepIndex : nat) : option string :=
  match stepIndex with
  | 0%nat => error_of (fetch_json "Perplexity" (perplexity_fetch w))
  | 1%nat => error_of (fetch_json "Gemini" (gemini_fetch w))
  | 2%nat => error_of (fetch_json "OpenAI" (openai_fetch w))
  | 3%nat =>
      error_of
        (promise_all (gemini_settles_first w)
           (fetch_json "Perplexity" (perplexity_fetch w))
           (fetch_json "Gemini" (gemini_fetch w)))
  | _ => None
  end.



(** The specification's sums for the final report: the number of
    [data.citations] of a history element and its [data.usage.total_tokens],
    zero where the field is absent. *)
Definition spec_sources (stepData : StepData.t) : Z :=
  match StepData.data stepData with
  | Some d =>
      match payload_citations d with
      | Some cs => Z.of_nat (List.length cs)
      | None => 0
      end
  | None => 0
  end.

Definition spec_tokens (stepData : StepData.t) : Z :=
  match StepData.data stepData with
  | Some d =>
      match payload_usage d with
      | Some u =>
          match total_tokens u with
          | Some n => n
          | None => 0
          end
      | None => 0
      end
  | None => 0
  end.

Definition sumZ (l : list Z) : Z := fold_right Z.add 0%Z l.

(** A url that is missing ([undefined], [null]) or is not a string. *)
Definition missing_or_non_string (v : value) : bool :=
  match v with
  | JStr _ => false
  | _ => true
  end.

(** A url that can be valid at all: a string that is not empty. *)
Definition non_empty_string (v : value) : bool :=
  match v with
  | JStr s => negb (is_empty s)
  | _ => false
  end.

(** What the handler answers once the query is accepted and the step
    function is chosen: the [try] around it and the final [Response]. *)
Definition respond (o : outcome Body) : Response :=
  try_catch
    (result <- o ;; Returned (mkResponse 200 result))%outcome
    (fun message => mkResponse 500 (BodyError message)).

(** The branch of the handler that a numeric step selects. *)
Definition step_body (w : World) (query : value) (prev : History)
  (stepIndex : nat) : outcome Body :=
  match stepIndex with
  | 1%nat => deep_analysis w query prev
  | 2%nat => classification_tagging w query prev
  | 3%nat => synthesis_validation w query prev
  | 4%nat => final_report w query prev
  | _ => initial_research w query
  end.

(** The body is a step result (and not an error or an empty object). *)
Definition is_step_result (b : Body) : bool :=
  match b with
  | BodyResult _ => true
  | _ => false
  end.


(** ** Sample data *)

Module Sample.

(** A runtime for the examples: some names of [Array.prototype] and
    [Object.prototype]. *)
Definition proto (name : string) : bool :=
  existsb (String.eqb name)
    [ "constructor"; "at"; "concat"; "map"; "filter"; "forEach"; "push";
      "pop"; "slice"; "join"; "toString"; "valueOf"; "hasOwnProperty" ].

Definition citation (u : value) : Citation :=
  {| url := u; source := Undefined; relevanceScore := None;
     trustScore := None; category := Undefined |}.

Definition answer (cs : option (list Citation)) (tokens : option Z)
  : ProviderResponse :=
  {| citations := cs;
     usage := match tokens with
              | Some n => Some {| total_tokens := Some n |}
              | None => None
              end;
     content := "text" |}.

(** Every provider answers with status 200; [Math.random] gives [r]. *)
Definition world (r : Q) : World :=
  {| perplexity_fetch :=
       HttpAnswer 200
         (Returned (answer (Some [citation (JStr "https://example.org/a");
                                  citation Undefined]) (Some 120%Z)));
     gemini_fetch := HttpAnswer 200 (Returned (answer None None));
     openai_fetch := HttpAnswer 200 (Returned (answer None (Some 80%Z)));
     gemini_settles_first := false;
     random := fun _ => r;
     now := "2025-01-01T00:00:00.000Z" |}.

(** The search provider answers with status 503. *)
Definition perplexity_down : World :=
  {| perplexity_fetch := HttpAnswer 503 (Thrown "Unexpected end of JSON input");
     gemini_fetch := gemini_fetch (world 0.5);
     openai_fetch := openai_fetch (world 0.5);
     gemini_settles_first := false;
     random := fun _ => 0.5;
     now := now (world 0.5) |}.

(** The reasoning provider answers with status 503. *)
Definition gemini_down : World :=
  {| perplexity_fetch := perplexity_fetch (world 0.5);
     gemini_fetch := HttpAnswer 503 (Thrown "Unexpected end of JSON input");
     openai_fetch := openai_fetch (world 0.5);
     gemini_settles_first := true;
     random := fun _ => 0.5;
     now := now (world 0.5) |}.

(** A history in which step 0 has 5 citations and 120 tokens and step 2 has
    no citation and 80 tokens. *)
Definition history_5_120_0_80 : list StepData.t :=
  [ StepData.mk (Some 0%Z) (Some "Perplexity")
      (Some (ProviderData
               (answer (Some (repeat (citation (JStr "https://example.org"))
                                5))
                  (Some 120%Z))))
      (Some (MetaInitial 5 120 0.75));
    StepData.mk (Some 2%Z) (Some "OpenAI GPT-4")
      (Some (ProviderData (answer (Some []) (Some 80%Z))))
      (Some (MetaTagging 25 6 0.9)) ].

(** A result to fall back on where a response carries none. *)
Definition blank : StepResult :=
  {| step := -1; stepName := "none"; service := "none";
     data := ProviderData (answer None None); previousData := None;
     nextStep := None; progress := 0; aiThoughts := [];
     metadata := MetaAnalysis 0 0 0 |}.

Definition result_of (r : Response) : StepResult :=
  match body r with
  | BodyResult result => result
  | _ => blank
  end.

(** The first citation of an adapter's answer. *)
Definition first_citation (o : outcome ProviderResponse) : option Citation :=
  match o with
  | Returned result =>
      match citations result with
      | Some (c :: _) => Some c
      | _ => None
      end
  | Thrown _ => None
  end.

(** The cross references of a step-3 response. *)
Definition cross_references_of (r : Response)
  : option (list CrossReference) :=
  match body r with
  | BodyResult result =>
      match data result with
      | SynthesisData _ _ refs => Some refs
      | _ => None
      end
  | _ => None
  end.

(** Two runs of step 0 that differ in the random numbers only. *)
Definition request0 : Request := post (JStr "climate policy") (JNum 0) None.

Definition run_a : StepResult := result_of (handler proto (world 0.25) request0).

Definition run_b : StepResult := result_of (handler proto (world 0.75) request0).

End Sample.

(** ** More of the handler's vocabulary *)

(** The text of an array index, as a string key has it. *)
Definition index_to_string (i : nat) : string :=
  NilZero.string_of_uint (Nat.to_uint i).

(** The entry of [researchSteps] that the report keeps for a history
    element. *)
Definition step_summary (stepData : StepData.t) : StepSummary :=
  {| sum_step := StepData.step stepData;
     sum_service := StepData.service stepData;
     sum_confidence := step_confidence stepData |}.

(** The confidence that a history element declares: [metadata.confidence],
    where there is a metadata object with that field. *)
Definition declared_confidence (stepData : StepData.t) : option Q :=
  match StepData.metadata stepData with
  | Some m => confidence_of m
  | None => None
  end.

(** The confidence the report reads from the result of each step. *)
Definition reported_confidence (i : nat) : Q :=
  match i with
  | 0%nat => 0.75
  | 1%nat => 0.85
  | 2%nat => 0.9
  | _ => 0.8
  end.

(** What a response adds to the caller's history: nothing when the
    invocation failed, its data otherwise. *)
Definition pushed (r : Response) : list StepData.t :=
  if invoke_failed r then []
  else
    match body r with
    | BodyResult result => [toStepData result]
    | _ => [StepData.empty]
    end.

(** ** The caller's side: results, graph, cards, language *)

(** The end of [executeMultiStepResearch]: the data of the last history
    element becomes the displayed result; [None] is the [null] that
    [setResults(null)] left. *)
Definition final_results (allStepData : list StepData.t) : option StepPayload :=
  match allStepData with
  | [] => None
  | _ :: _ => StepData.data (last allStepData StepData.empty)
  end.

Inductive NodeStatus : Type := Pending | Active | Completed | Error.

(** A node of the research graph; [node_data] is set once the step's data
    has arrived.  Position, connections and timestamp, which no update of
    the loop touches, are left out. *)
Record GraphNode : Type := mkGraphNode {
  node_id : string;
  node_label : string;
  node_service : string;
  node_status : NodeStatus;   
  node_data : option StepData.t;
  node_confidence : Q
}.

Definition phase_id (index : nat) : string :=
  "phase-" ++ number_to_string (Z.of_nat index).

Definition with_status (status : NodeStatus) (node : GraphNode) : GraphNode :=
  {| node_id := node_id node; node_label := node_label node;
     node_service := node_service node; node_status := status;
     node_data := node_data node; node_confidence := node_confidence node |}.

(** [setGraphNodes(prev => prev.map(...))] of [updateGraphNodeStatus]. *)
Definition updateGraphNodeStatus (phaseIndex : nat) (status : NodeStatus)
  (prev : list GraphNode) : list GraphNode :=
  map (fun node =>
         if String.eqb (node_id node) (phase_id phaseIndex)
         then with_status status node
         else node)
    prev.

(** The update of the node after a successful invocation:
    [{ ...node, data, confidence: 0.9 }]. *)
Definition attach_data (phaseIndex : nat) (d : StepData.t)
  (prev : list GraphNode) : list GraphNode :=
  map (fun node =>
         if String.eqb (node_id node) (phase_id phaseIndex)
         then {| node_id := node_id node; node_label := node_label node;
                 node_service := node_service node;
                 node_status := node_status node;
                 node_data := Some d; node_confidence := 0.9 |}
         else node)
    prev.

(** The names and services of [phases], from which the graph starts. *)
Definition phases : list (string * string) :=
  [ ("Начальное исследование", "Perplexity");
    ("Глубокий анализ", "Gemini");
    ("Классификация и тегирование", "OpenAI GPT-4");
    ("Синтез и валидация", "Multi-AI");
    ("Финальный отчет", "Research Orchestrator") ].

Fixpoint initial_nodes_from (index : nat) (ps : list (string * string))
  : list GraphNode :=
  match ps with
  | [] => []
  | (name, svc) :: rest =>
      {| node_id := phase_id index; node_label := name; node_service := svc;
         node_status := Pending; node_data := None; node_confidence := 0.8 |}
      :: initial_nodes_from (S index) rest
  end.

(** [phases.map((phase, index) => ...)] of the initialising effect. *)
Definition initial_nodes : list GraphNode := initial_nodes_from 0 phases.

(** The colour classes [SourceCard] derives from a score. *)
Definition trustColor (trustScore : Q) : string :=
  if Qlt_le_dec 0.7 trustScore then "text-green-400"
  else if Qlt_le_dec 0.4 trustScore then "text-yellow-400"
  else "text-red-400".

Definition relevanceColor (relevanceScore : Q) : string :=
  if Qlt_le_dec 0.8 relevanceScore then "text-cyan-400"
  else if Qlt_le_dec 0.6 relevanceScore then "text-blue-400"
  else "text-purple-400".

(** [score || Math.random() * 0.4 + 0.6]: the generator is used only where
    the score is absent or zero. *)
Definition score_or_random (score : option Q) (g : rng) : Q * rng :=
  match score with
  | Some s =>
      if Qeq_bool s 0
      then let (r, g') := Math_random g in (r * 0.4 + 0.6, g')
      else (s, g)
  | None => let (r, g') := Math_random g in (r * 0.4 + 0.6, g')
  end.

(** The two scores of a card, in the order the component computes them. *)
Definition card_scores (c : Citation) (g : rng) : Q * Q :=
  let (trust, g1) := score_or_random (trustScore c) g in
  let (relevance, _) := score_or_random (relevanceScore c) g1 in
  (trust, relevance).

Section DetectLanguage.

(** A text is the sequence of its UTF-16 code units.  Which code units the
    case-insensitive class [/[а-яё]/i] accepts is left to the runtime. *)
Variable cyrillic : N -> bool.

(** [/[a-z]/i] *)
Definition english (c : N) : bool :=
  ((65 <=? c) && (c <=? 90) || (97 <=? c) && (c <=? 122))%N.

(** [(text.match(pattern) || []).length] for a pattern without the [g]
    flag: the match array holds the first match only. *)
Definition match_length (class : N -> bool) (text : list N) : nat :=
  if existsb class text then 1%nat else 0%nat.

Definition detectLanguage (text : list N) : string :=
  let cyrillicCount := match_length cyrillic text in
  let englishCount := match_length english text in
  if (englishCount <? cyrillicCount)%nat then "ru-RU"
  else if (0 <? englishCount)%nat then "en-US"
  else "ru-RU".

End DetectLanguage.

(** The overall progress shown after thought [thoughtIndex] of step
    [stepIndex], for a step with [thoughts] thoughts and [steps] steps. *)
Definition overallProgress (steps stepIndex thoughtIndex thoughts : nat) : Q :=
  (inject_Z (Z.of_nat stepIndex)
   + (inject_Z (Z.of_nat thoughtIndex) + 1) / inject_Z (Z.of_nat thoughts))
  / inject_Z (Z.of_nat steps) * 100.

Section GraphOfARun.

Variable proto : string -> bool.

(** What one turn of the loop does to the graph nodes: active, then the
    data or the error status, then completed. *)
Definition turn_nodes (w : World) (query : string) (stepIndex : nat)
  (allStepData : list StepData.t) (nodes : list GraphNode) : list GraphNode :=
  let n1 := updateGraphNodeStatus stepIndex Active nodes in
  let r := invoke proto w query stepIndex allStepData in
  let n2 :=
    if invoke_failed r then updateGraphNodeStatus stepIndex Error n1
    else
      attach_data stepIndex
        (match body r with
         | BodyResult result => toStepData result
         | _ => StepData.empty
         end)
        n1 in
  updateGraphNodeStatus stepIndex Completed n2.

(** The graph nodes along the loop. *)
Fixpoint loop_nodes (worlds : nat -> World) (query : string) (turns from : nat)
  (allStepData : list StepData.t) (nodes : list GraphNode) : list GraphNode :=
  match turns with
  | O => nodes
  | S turns' =>
      loop_nodes worlds query turns' (S from)
        (loop_turn proto (worlds from) query from allStepData)
        (turn_nodes (worlds from) query from allStepData nodes)
  end.

End GraphOfARun.

(** ** More sample data *)

Module Fixture.

(** A search-provider answer with ten citations, the second of which has no
    url and the third a source. *)
Definition raw_citations : list Citation :=
  [ Sample.citation (JStr "https://example.org/0");
    Sample.citation Null;
    {| url := JStr "https://example.org/2"; source := JStr "news";
       relevanceScore := None; trustScore := None; category := Undefined |} ]
  ++ repeat (Sample.citation (JStr "https://example.org/n")) 7.

Definition raw : ProviderResponse :=
  Sample.answer (Some raw_citations) (Some 120%Z).

Definition world : World :=
  {| perplexity_fetch := HttpAnswer 200 (Returned raw);
     gemini_fetch := gemini_fetch (Sample.world 0.5);
     openai_fetch := openai_fetch (Sample.world 0.5);
     gemini_settles_first := false;
     random := fun n => if Nat.even n then 0.25 else 0.75;
     now := now (Sample.world 0.5) |}.

(** What the adapter makes of [raw] in [world]. *)
Definition enhanced : ProviderResponse := enhance (random world) raw.

Definition enhanced_citations : list Citation :=
  fst (enhance_citations (random world) 0 raw_citations).

(** The ninth citation of the enhanced answer. *)
Definition ninth : Citation :=
  enhance_citation 8 0.25 0.75 (Sample.citation (JStr "https://example.org/n")).

(** The results of steps 0 and 3 in the sample world. *)
Definition step0 : StepResult :=
  Sample.result_of
    (handler Sample.proto (Sample.world 0.5)
       (post (JStr "climate policy") (JNum 0) None)).

Definition step3 : StepResult :=
  Sample.result_of
    (handler Sample.proto (Sample.world 0.5)
       (post (JStr "climate policy") (JNum (inject_Z (Z.of_nat 3))) None)).

(** A search-provider answer whose second url is missing, whose third is
    the empty string and whose fourth is a number. *)
Definition url_citations : list Citation :=
  [ Sample.citation (JStr "https://example.org/a");
    Sample.citation Undefined;
    Sample.citation (JStr EmptyString);
    Sample.citation (JNum 3);
    Sample.citation (JStr "https://example.org/e") ].

Definition url_answer : ProviderResponse :=
  Sample.answer (Some url_citations) (Some 120%Z).

Definition url_world : World :=
  {| perplexity_fetch := HttpAnswer 200 (Returned url_answer);
     gemini_fetch := gemini_fetch (Sample.world 0.5);
     openai_fetch := openai_fetch (Sample.world 0.5);
     gemini_settles_first := false;
     random := fun _ => 0.5;
     now := now (Sample.world 0.5) |}.

(** A text of three Cyrillic letters and one Latin letter, in code units,
    and the Cyrillic class on the basic letters. *)
Definition mixed_text : list N := [1055; 1088; 1080; 32; 120]%N.

Definition cyrillic (c : N) : bool :=
  ((1040 <=? c) && (c <=? 1103) || (c =? 1025) || (c =? 1105))%N.

End Fixture.

(** * Properties *)

(** ** The final report builder *)

Section FinalReportProperties.

Lemma or_zero_id (z : Z) : or_zero z = z.
Proof.
  unfold or_zero. destruct (Z.eqb_spec z 0); congruence.
Qed.

Lemma aggregate_step_sources (report : FinalReport) (stepData : StepData.t) :
  totalSources (aggregate_step report stepData)
  = (totalSources report + spec_sources stepData)%Z.
Proof.
  unfold aggregate_step, spec_sources.
  destruct (StepData.data stepData) as [d|]; cbn.
  - destruct (payload_citations d), (payload_usage d); cbn; lia.
  - lia.
Qed.

Lemma aggregate_step_tokens (report : FinalReport) (stepData : StepData.t) :
  totalTokens (aggregate_step report stepData)
  = (totalTokens report + spec_tokens stepData)%Z.
Proof.
  unfold aggregate_step, spec_tokens.
  destruct (StepData.data stepData) as [d|]; cbn; [|lia].
  destruct (payload_citations d), (payload_usage d) as [u|]; cbn; try lia.
  - destruct (total_tokens u); rewrite ?or_zero_id; lia.
  - destruct (total_tokens u); rewrite ?or_zero_id; lia.
Qed.

Lemma aggregate_step_steps (report : FinalReport) (stepData : StepData.t) :
  List.length (researchSteps (aggregate_step report stepData))
  = S (List.length (researchSteps report)).
Proof.
  unfold aggregate_step.
  destruct (StepData.data stepData) as [d|]; cbn.
  - destruct (payload_citations d), (payload_usage d); cbn;
      rewrite length_app; cbn; lia.
  - rewrite length_app; cbn; lia.
Qed.

(** The loop invariant of the [forEach]: the totals of the report are those
    it started from plus the sums over the elements seen. *)
Lemma fold_aggregate_totals (steps : list StepData.t) :
  forall report,
    totalSources (fold_left aggregate_step steps report)
    = (totalSources report + sumZ (map spec_sources steps))%Z
    /\ totalTokens (fold_left aggregate_step steps report)
       = (totalTokens report + sumZ (map spec_tokens steps))%Z
    /\ List.length (researchSteps (fold_left aggregate_step steps report))
       = (List.length (researchSteps report) + List.length steps)%nat.
Proof.
  unfold sumZ.
  induction steps as [|stepData steps IH]; intros report;
    cbn [fold_left map fold_right List.length].
  - repeat split; lia.
  - destruct (IH (aggregate_step report stepData)) as (Hs & Ht & Hn).
    rewrite Hs, Ht, Hn, aggregate_step_sources, aggregate_step_tokens,
      aggregate_step_steps.
    repeat split; lia.
Qed.

(** C5. [generateFinalReport] adds, over every element of the history, the
    length of the element's [data.citations] to [totalSources] and its
    [data.usage.total_tokens] to [totalTokens]; on the history in which
    step 0 has 5 citations and 120 tokens and step 2 has no citation and
    80 tokens it returns [totalSources = 5] and [totalTokens = 200]. *)
Theorem generateFinalReport_totals :
  (forall (w : World) (q : value) (steps : list StepData.t),
      totalSources (generateFinalReport w q (Some steps))
      = sumZ (map spec_sources steps)
      /\ totalTokens (generateFinalReport w q (Some steps))
         = sumZ (map spec_tokens steps))
  /\ (forall (w : World) (q : value),
         totalSources (generateFinalReport w q (Some Sample.history_5_120_0_80))
         = 5%Z
         /\ totalTokens
              (generateFinalReport w q (Some Sample.history_5_120_0_80))
            = 200%Z).
Proof.
  split.
  - intros w q steps. unfold generateFinalReport.
    destruct (fold_aggregate_totals steps (initial_report w q)) as (Hs & Ht & _).
    rewrite Hs, Ht. cbn. split; reflexivity.
  - intros w q. split; reflexivity.
Qed.

End FinalReportProperties.

(** ** The handler, step by step *)

Section HandlerProperties.

Variable proto : string -> bool.

Lemma index_of_number_inject (z : Z) :
  index_of_number (inject_Z z)
  = if (0 <=? z)%Z then Some (Z.to_nat z) else None.
Proof.
  unfold index_of_number, inject_Z; cbn [Qnum Qden].
  rewrite Z.mod_1_r, Z.div_1_r. reflexivity.
Qed.

Lemma get_index (i : nat) :
  Js.get proto researchSteps_names (JNum (inject_Z (Z.of_nat i)))
  = Returned (get_element researchSteps_names i).
Proof.
  cbn [Js.get]. rewrite index_of_number_inject.
  destruct (Z.leb_spec 0 (Z.of_nat i)); [|lia].
  rewrite Nat2Z.id. reflexivity.
Qed.

(** A number below 0 or above 4 names no element of the array. *)
Lemma get_out_of_range (z : Z) :
  (z < 0 \/ 4 < z)%Z ->
  Js.get proto researchSteps_names (JNum (inject_Z z)) = Returned Missing.
Proof.
  intros Hz. cbn [Js.get]. rewrite index_of_number_inject.
  destruct (Z.leb_spec 0 z); [|reflexivity].
  unfold get_element.
  assert (H5 : nth_error researchSteps_names (Z.to_nat z) = None).
  { apply nth_error_None. cbn. lia. }
  rewrite H5. reflexivity.
Qed.

(** A number with a fractional part names no element either. *)
Lemma get_fractional (q : Q) :
  (Qnum q mod Zpos (Qden q) <> 0)%Z ->
  Js.get proto researchSteps_names (JNum q) = Returned Missing.
Proof.
  intros Hq. cbn [Js.get]. unfold index_of_number.
  destruct (Z.eqb_spec (Qnum q mod Z.pos (Qden q)) 0) as [H0|_];
    [contradiction|reflexivity].
Qed.

Lemma handler_accepts (w : World) (q s : value) (prev : History) :
  truthy q = true ->
  handler proto w (post q s prev)
  = respond
      (bind (Js.get proto researchSteps_names (step_or_default s))
         (fun found => run_step w (or_initial_research found) q prev)).
Proof.
  intros Hq. unfold handler, post, respond.
  cbn [method json req_query req_step req_previousData bind].
  change (String.eqb "POST" "OPTIONS") with false. cbn iota.
  rewrite Hq. cbn [negb].
  destruct (Js.get proto researchSteps_names (step_or_default s));
    reflexivity.
Qed.

Lemma handler_rejects (w : World) (q s : value) (prev : History) :
  truthy q = false ->
  handler proto w (post q s prev)
  = mkResponse 400 (BodyError "Query is required").
Proof.
  intros Hq. unfold handler, post.
  cbn [method json req_query req_step req_previousData bind].
  change (String.eqb "POST" "OPTIONS") with false. cbn iota.
  rewrite Hq. reflexivity.
Qed.

(** A numeric step selects its branch; a number above 4 selects the first. *)
Lemma handler_at_index (w : World) (q : value) (prev : History) (i : nat) :
  truthy q = true ->
  handler proto w (post q (JNum (inject_Z (Z.of_nat i))) prev)
  = respond (step_body w q prev i).
Proof.
  intros Hq. rewrite handler_accepts by assumption.
  cbn [step_or_default]. rewrite get_index. cbn [bind].
  do 5 (destruct i as [|i]; [reflexivity|]).
  unfold get_element.
  assert (H5 : nth_error researchSteps_names (S (S (S (S (S i))))) = None).
  { apply nth_error_None. cbn. lia. }
  rewrite H5. reflexivity.
Qed.

(** A step that names no property of the array selects the first branch. *)
Lemma handler_missing (w : World) (q s : value) (prev : History) :
  truthy q = true ->
  Js.get proto researchSteps_names (step_or_default s) = Returned Missing ->
  handler proto w (post q s prev) = respond (initial_research w q).
Proof.
  intros Hq Hs. rewrite handler_accepts by assumption.
  rewrite Hs. reflexivity.
Qed.


Lemma respond_returned (o : outcome Body) (b : Body) :
  o = Returned b -> respond o = mkResponse 200 b.
Proof. intros ->. reflexivity. Qed.

Lemma callPerplexity_error (w : World) (q : value) (m : string) :
  error_of (callPerplexity w q m)
  = error_of (fetch_json "Perplexity" (perplexity_fetch w)).
Proof.
  unfold callPerplexity.
  destruct (fetch_json "Perplexity" (perplexity_fetch w)); reflexivity.
Qed.



Lemma error_of_none {A : Type} (o : outcome A) :
  error_of o = None -> exists a, o = Returned a.
Proof. destruct o; cbn; [eauto|congruence]. Qed.

End HandlerProperties.

(** ** The caller's loop *)

Section LoopProperties.

Variable proto : string -> bool.

Lemma invoke_at_index (w : World) (query : string) (i : nat)
  (hist : list StepData.t) :
  is_empty query = false ->
  exists prev,
    invoke proto w query i hist = respond (step_body w (JStr query) prev i).
Proof.
  intros Hq. unfold invoke. eexists.
  apply handler_at_index. cbn. rewrite Hq. reflexivity.
Qed.


Lemma loop_step (worlds : nat -> World) (query : string) (turns from : nat)
  (hist : list StepData.t) :
  loop proto worlds query (S turns) from hist
  = ((from, invoke proto (worlds from) query from hist)
       :: fst (loop proto worlds query turns (S from)
                 (loop_turn proto (worlds from) query from hist)),
     snd (loop proto worlds query turns (S from)
            (loop_turn proto (worlds from) query from hist))).
Proof.
  cbn [loop].
  destruct (loop proto worlds query turns (S from)
              (loop_turn proto (worlds from) query from hist)).
  reflexivity.
Qed.

(** The loop calls the handler once per step, in order, whatever the
    answers are. *)
Lemma loop_calls (worlds : nat -> World) (query : string) (turns : nat) :
  forall from hist,
    map fst (fst (loop proto worlds query turns from hist)) = seq from turns.
Proof.
  induction turns as [|turns IH]; intros from hist.
  - reflexivity.
  - rewrite loop_step. cbn [fst map seq]. rewrite IH. reflexivity.
Qed.


(** A run makes its five invocations, for steps 0 to 4 in this order,
    whichever of them fail. *)
Lemma executeMultiStepResearch_calls (worlds : nat -> World) (query : string) :
  map fst (fst (executeMultiStepResearch proto worlds query))
  = [0; 1; 2; 3; 4]%nat.
Proof.
  unfold executeMultiStepResearch. apply loop_calls.
Qed.

End LoopProperties.

(** Values that name no property of the array, in the sample runtime. *)
Example get_null_and_text :
  Js.get Sample.proto researchSteps_names Null = Returned Missing
  /\ Js.get Sample.proto researchSteps_names (JBool true) = Returned Missing
  /\ Js.get Sample.proto researchSteps_names (JStr "abc") = Returned Missing
  /\ Js.get Sample.proto researchSteps_names (JNum 2.5) = Returned Missing
  /\ Js.get Sample.proto researchSteps_names (JStr "2")
     = Returned (Element "classification_tagging")
  /\ Js.get Sample.proto researchSteps_names (JStr "02") = Returned Missing
  /\ Js.get Sample.proto researchSteps_names (JStr "map")
     = Returned (Inherited "map")
  /\ Js.get Sample.proto researchSteps_names
       (JObj (Thrown "Cannot convert object to primitive value"))
     = Thrown "Cannot convert object to primitive value".
Proof.
  repeat split.
Qed.

(** A run in which every provider answers: the last response is the final
    report, with one summary per preceding step. *)
Example run_with_all_providers_up :
  let run :=
    executeMultiStepResearch Sample.proto (fun _ => Sample.world 0.5)
      "climate policy" in
  map (fun call => status (snd call)) (fst run) = [200; 200; 200; 200; 200]%Z
  /\ List.length (snd run) = 5%nat
  /\ match last (fst run) (0%nat, mkResponse 0 BodyEmpty) with
     | (_, {| body := BodyResult r |}) =>
         step r = 4%Z /\ progress r = 100%Z /\ nextStep r = None
         /\ match data r with
            | ReportData report =>
                List.length (researchSteps report) = 4%nat
                /\ totalSources report = 2%Z
                /\ totalTokens report = 200%Z
            | _ => False
            end
     | _ => False
     end.
Proof.
  vm_compute. repeat split.
Qed.

(** A run in which the reasoning provider is down: steps 1 and 3 fail, the
    loop still reaches step 4, and the report counts the two steps left. *)
Example run_with_reasoning_provider_down :
  let run :=
    executeMultiStepResearch Sample.proto (fun _ => Sample.gemini_down)
      "climate policy" in
  map (fun call => status (snd call)) (fst run) = [200; 500; 200; 500; 200]%Z
  /\ List.length (snd run) = 3%nat
  /\ match last (fst run) (0%nat, mkResponse 0 BodyEmpty) with
     | (_, {| body := BodyResult r |}) =>
         step r = 4%Z /\ progress r = 100%Z
         /\ match data r with
            | ReportData report => List.length (researchSteps report) = 2%nat
            | _ => False
            end
     | _ => False
     end.
Proof.
  vm_compute. repeat split.
Qed.

(** ** Failure of an adapter call *)

Section AdapterFailure.

Variable proto : string -> bool.



End AdapterFailure.





(** ** The result of a step *)

Section StepResults.

Variable proto : string -> bool.


(** C6. On an empty history (the empty array, or [null] as the caller's loop
    sends it) the final-report builder returns [totalSources = 0] and
    [totalTokens = 0]; it is a total function, and step 4 answers with a
    result built from it for every history, empty or partial. *)
Theorem final_report_tolerates_empty_history (w : World) (q : value) :
  truthy q = true ->
  totalSources (generateFinalReport w q (Some [])) = 0%Z
  /\ totalTokens (generateFinalReport w q (Some [])) = 0%Z
  /\ totalSources (generateFinalReport w q None) = 0%Z
  /\ totalTokens (generateFinalReport w q None) = 0%Z
  /\ forall prev : History,
       exists r,
         handler proto w (post q (JNum (inject_Z 4)) prev)
         = mkResponse 200 (BodyResult r)
         /\ step r = 4%Z
         /\ data r = ReportData (generateFinalReport w q prev)
         /\ metadata r
            = MetaReport (totalSources (generateFinalReport w q prev))
                (totalTokens (generateFinalReport w q prev)) 0.98.
Proof.
  intros Hq. repeat (split; [reflexivity|]).
  intros prev.
  change (inject_Z 4) with (inject_Z (Z.of_nat 4)).
  rewrite handler_at_index by assumption.
  eexists. split; [reflexivity|].
  cbn [step data metadata]. rewrite !or_zero_id. repeat split.
Qed.

(** The four wrapping fields of a result. *)
Lemma run_step_wrapping (w1 w2 : World) (cs : member) (q : value)
  (prev : History) (r1 r2 : StepResult) :
  run_step w1 cs q prev = Returned (BodyResult r1) ->
  run_step w2 cs q prev = Returned (BodyResult r2) ->
  step r1 = step r2 /\ stepName r1 = stepName r2
  /\ service r1 = service r2 /\ progress r1 = progress r2.
Proof.
  unfold run_step.
  destruct (is_step cs "initial_research").
  { unfold initial_research, callPerplexity.
    destruct (fetch_json "Perplexity" (perplexity_fetch w1)),
      (fetch_json "Perplexity" (perplexity_fetch w2));
      cbn; intros H1 H2; try discriminate.
    injection H1 as <-. injection H2 as <-. repeat split. }
  destruct (is_step cs "deep_analysis").
  { unfold deep_analysis, callGemini.
    destruct (fetch_json "Gemini" (gemini_fetch w1)),
      (fetch_json "Gemini" (gemini_fetch w2));
      cbn; intros H1 H2; try discriminate.
    injection H1 as <-. injection H2 as <-. repeat split. }
  destruct (is_step cs "classification_tagging").
  { unfold classification_tagging, callOpenAI.
    destruct (fetch_json "OpenAI" (openai_fetch w1)),
      (fetch_json "OpenAI" (openai_fetch w2));
      cbn; intros H1 H2; try discriminate.
    injection H1 as <-. injection H2 as <-. repeat split. }
  destruct (is_step cs "synthesis_validation").
  { unfold synthesis_validation, callPerplexity, callGemini.
    destruct (fetch_json "Perplexity" (perplexity_fetch w1)),
      (fetch_json "Gemini" (gemini_fetch w1)),
      (fetch_json "Perplexity" (perplexity_fetch w2)),
      (fetch_json "Gemini" (gemini_fetch w2));
      cbn; intros H1 H2; try discriminate.
    injection H1 as <-. injection H2 as <-. repeat split. }
  destruct (is_step cs "final_report").
  { unfold final_report. intros H1 H2.
    injection H1 as <-. injection H2 as <-. repeat split. }
  discriminate.
Qed.

(** C8. For every request (so for every step index, query and
    [previousData]), two invocations that both yield a result, whatever the
    providers, the clock and the random generator answer in each, agree on
    [step], [stepName], [service] and [progress]. *)
Theorem wrapping_metadata_is_deterministic
  (req : Request) (w1 w2 : World) (r1 r2 : StepResult) :
  body (handler proto w1 req) = BodyResult r1 ->
  body (handler proto w2 req) = BodyResult r2 ->
  step r1 = step r2 /\ stepName r1 = stepName r2
  /\ service r1 = service r2 /\ progress r1 = progress r2.
Proof.
  unfold handler.
  destruct (String.eqb (method req) "OPTIONS"); [discriminate|].
  destruct (json req) as [b|e]; cbn [bind try_catch]; [|discriminate].
  destruct (truthy (req_query b)); cbn [negb]; [|discriminate].
  destruct (Js.get proto researchSteps_names (step_or_default (req_step b)))
    as [found|e]; cbn [bind try_catch]; [|discriminate].
  set (cs := or_initial_research found).
  destruct (run_step w1 cs (req_query b) (req_previousData b))
    as [b1|e1] eqn:E1; cbn [bind try_catch body]; [|discriminate].
  destruct (run_step w2 cs (req_query b) (req_previousData b))
    as [b2|e2] eqn:E2; cbn [bind try_catch body]; [|discriminate].
  intros -> ->. exact (run_step_wrapping w1 w2 cs _ _ r1 r2 E1 E2).
Qed.

(** The fallback of the step lookup, where it works.  For every request whose
    step is a number below 0 or above 4, or any other value that is
    converted to a key naming no property of the array of step names, the
    handler answers exactly as for step 0: the step value
    causes no error response, and when the query is given and the search
    provider's call succeeds the answer is the initial-research result with
    [progress] 20 and [nextStep] 1. *)
Theorem out_of_range_step_falls_back_to_initial_research
  (w : World) (q s : value) (prev : History) :
  (exists z, s = JNum (inject_Z z) /\ (z < 0 \/ 4 < z)%Z)
  \/ Js.get proto researchSteps_names s = Returned Missing ->
  handler proto w (post q s prev) = handler proto w (post q (JNum 0) prev)
  /\ (truthy q = true ->
      adapter_error w 0 = None ->
      exists r,
        handler proto w (post q s prev) = mkResponse 200 (BodyResult r)
        /\ step r = 0%Z
        /\ stepName r = "Начальное исследование"
        /\ service r = "Perplexity"
        /\ progress r = 20%Z
        /\ nextStep r = Some 1%Z).
Proof.
  intros Hs.
  assert (Hstep : truthy q = true ->
                  handler proto w (post q s prev)
                  = respond (initial_research w q)).
  { intros Hq.
    destruct s; [rewrite handler_accepts by assumption; reflexivity|..];
      (apply handler_missing; [assumption|]); cbn [step_or_default].
    - destruct Hs as [(z & Hz & _)|Hs]; [discriminate|exact Hs].
    - destruct Hs as [(z & Hz & _)|Hs]; [discriminate|exact Hs].
    - destruct Hs as [(z & Hz & Hr)|Hs]; [|exact Hs].
      rewrite Hz. apply get_out_of_range. exact Hr.
    - destruct Hs as [(z & Hz & _)|Hs]; [discriminate|exact Hs].
    - destruct Hs as [(z & Hz & _)|Hs]; [discriminate|exact Hs]. }
  split.
  - destruct (truthy q) eqn:Hq.
    + rewrite Hstep by reflexivity.
      change (JNum 0) with (JNum (inject_Z (Z.of_nat 0))).
      rewrite handler_at_index by assumption. reflexivity.
    + rewrite !handler_rejects by assumption. reflexivity.
  - intros Hq He. rewrite Hstep by assumption.
    cbn [adapter_error] in He. apply error_of_none in He.
    destruct He as [p Hp].
    unfold initial_research, callPerplexity. rewrite Hp.
    eexists. split; [reflexivity|]. repeat split.
Qed.

End StepResults.


Lemma final_report_tolerates_empty_history_witness :
  truthy (JStr "climate policy") = true
  /\ totalSources
       (generateFinalReport (Sample.world 0.5) (JStr "climate policy")
          (Some []))
     = 0%Z.
Proof.
  split; [reflexivity|].
  apply (final_report_tolerates_empty_history Sample.proto (Sample.world 0.5)
           (JStr "climate policy")); reflexivity.
Defined.

Lemma wrapping_metadata_is_deterministic_witness :
  body (handler Sample.proto (Sample.world 0.25) Sample.request0)
  = BodyResult Sample.run_a
  /\ body (handler Sample.proto (Sample.world 0.75) Sample.request0)
     = BodyResult Sample.run_b
  /\ data Sample.run_a <> data Sample.run_b
  /\ step Sample.run_a = step Sample.run_b
  /\ stepName Sample.run_a = stepName Sample.run_b
  /\ service Sample.run_a = service Sample.run_b
  /\ progress Sample.run_a = progress Sample.run_b.
Proof.
  assert (H1 : body (handler Sample.proto (Sample.world 0.25) Sample.request0)
               = BodyResult Sample.run_a) by reflexivity.
  assert (H2 : body (handler Sample.proto (Sample.world 0.75) Sample.request0)
               = BodyResult Sample.run_b) by reflexivity.
  split; [exact H1|]. split; [exact H2|].
  split; [vm_compute; discriminate|].
  exact (wrapping_metadata_is_deterministic Sample.proto Sample.request0
           (Sample.world 0.25) (Sample.world 0.75) Sample.run_a Sample.run_b
           H1 H2).
Defined.

(** C10 fails on the code for the step ["length"].  The string is no index
    of 0..4, so the handler should fall back to step 0 as it does for the
    number 7 and the string ["abc"], whose answers are those of step 0 with
    [progress] 20 and [nextStep] 1; but [researchSteps["length"]] is the
    number 5, which is truthy: the fallback is not taken, no branch
    matches, and the answer is status 200 with the empty object. *)
Lemma step_length_gives_empty_result :
  index_of_string "length" = None
  /\ handler Sample.proto (Sample.world 0.5)
       (post (JStr "climate policy") (JStr "length") None)
     = mkResponse 200 BodyEmpty
  /\ is_step_result
       (body (handler Sample.proto (Sample.world 0.5)
                (post (JStr "climate policy") (JStr "length") None)))
     = false
  /\ handler Sample.proto (Sample.world 0.5)
       (post (JStr "climate policy") (JNum 7) None)
     = handler Sample.proto (Sample.world 0.5)
         (post (JStr "climate policy") (JNum 0) None)
  /\ handler Sample.proto (Sample.world 0.5)
       (post (JStr "climate policy") (JStr "abc") None)
     = handler Sample.proto (Sample.world 0.5)
         (post (JStr "climate policy") (JNum 0) None)
  /\ progress
       (Sample.result_of
          (handler Sample.proto (Sample.world 0.5)
             (post (JStr "climate policy") (JNum 0) None)))
     = 20%Z
  /\ nextStep
       (Sample.result_of
          (handler Sample.proto (Sample.world 0.5)
             (post (JStr "climate policy") (JNum 0) None)))
     = Some 1%Z.
Proof.
  repeat split; vm_compute; reflexivity.
Qed.

Lemma out_of_range_step_falls_back_to_initial_research_witness :
  ((exists z, JNum 7 = JNum (inject_Z z) /\ (z < 0 \/ 4 < z)%Z)
   \/ Js.get Sample.proto researchSteps_names (JNum 7) = Returned Missing)
  /\ handler Sample.proto (Sample.world 0.5)
       (post (JStr "climate policy") (JNum 7) None)
     = handler Sample.proto (Sample.world 0.5)
         (post (JStr "climate policy") (JNum 0) None).
Proof.
  assert (H : (exists z, JNum 7 = JNum (inject_Z z) /\ (z < 0 \/ 4 < z)%Z)
              \/ Js.get Sample.proto researchSteps_names (JNum 7)
                 = Returned Missing).
  { left. exists 7%Z. split; [reflexivity|lia]. }
  split; [exact H|].
  apply (out_of_range_step_falls_back_to_initial_research Sample.proto
           (Sample.world 0.5) (JStr "climate policy") (JNum 7) None H).
Defined.

(** ** The cross-reference synthesizer *)

(** C7, as the code has it.  The cross-reference synthesizer is a function of
    the history alone; for every history that is not [null] (any array, also
    the empty one) it returns the same catalog of exactly three records
    (fact_verification, semantic_consistency, classification_accuracy) with
    confidences 0.92, 0.88, 0.95 and fixed provider names, whatever the
    history holds; for a [null] history it returns the empty list. *)
Theorem generateCrossReferences_fixed_catalog :
  (forall steps : list StepData.t,
      generateCrossReferences (Some steps) = cross_reference_catalog)
  /\ generateCrossReferences None = []
  /\ List.length cross_reference_catalog = 3%nat
  /\ map cr_type cross_reference_catalog
     = [ "fact_verification"; "semantic_consistency";
         "classification_accuracy" ]
  /\ map cr_confidence cross_reference_catalog = [ 0.92; 0.88; 0.95 ]%Q
  /\ map cr_sources cross_reference_catalog
     = [ [ "Perplexity"; "Gemini" ]; [ "Gemini"; "OpenAI" ];
         [ "OpenAI"; "Perplexity" ] ].
Proof.
  repeat split.
Qed.

(** C7 as stated fails: for the [null] history the synthesizer returns no
    record, and [null] is what the caller's loop sends as history at step 3
    when no earlier step has left a result. *)
Lemma null_history_has_no_cross_references :
  generateCrossReferences None = []
  /\ Sample.cross_references_of
       (invoke Sample.proto (Sample.world 0.5) "climate policy" 3 [])
     = Some [].
Proof.
  split; reflexivity.
Qed.

(** ** Post-processing of citations *)

Section Citations.

Lemma enhance_citations_length (cs : list Citation) :
  forall g index,
    List.length (fst (enhance_citations g index cs)) = List.length cs.
Proof.
  induction cs as [|c cs IH]; intros g index; cbn [enhance_citations].
  - reflexivity.
  - unfold Math_random; cbn zeta.
    specialize (IH (fun n => g (S (S n))) (S index)).
    destruct (enhance_citations (fun n => g (S (S n))) (S index) cs).
    cbn [fst List.length] in *. congruence.
Qed.

(** The citation at position [k] is enhanced with its own position and with
    the random numbers [2k] and [2k + 1] of the generator; no other
    position is touched by it. *)
Lemma enhance_citations_nth (cs : list Citation) :
  forall g index k c,
    nth_error cs k = Some c ->
    nth_error (fst (enhance_citations g index cs)) k
    = Some (enhance_citation (index + k) (g (2 * k)%nat) (g (2 * k + 1)%nat) c).
Proof.
  induction cs as [|c0 cs IH]; intros g index k c Hk.
  - destruct k; discriminate Hk.
  - cbn [enhance_citations]. unfold Math_random; cbn zeta.
    specialize (IH (fun n => g (S (S n))) (S index)).
    destruct (enhance_citations (fun n => g (S (S n))) (S index) cs)
      as [rest g'] eqn:E.
    cbn [fst] in *.
    destruct k as [|k]; cbn [nth_error] in *.
    + injection Hk as ->. rewrite Nat.add_0_r. reflexivity.
    + rewrite (IH k c Hk).
      replace (S index + k)%nat with (index + S k)%nat by lia.
      replace (S (S (2 * k)))%nat with (2 * S k)%nat by lia.
      replace (S (S (2 * k + 1)))%nat with (2 * S k + 1)%nat by lia.
      reflexivity.
Qed.

Lemma enhance_citation_url_replaced (index : nat) (r1 r2 : Q) (c : Citation) :
  missing_or_non_string (url c) = true ->
  url (enhance_citation index r1 r2 c) = JStr "#".
Proof.
  unfold enhance_citation; cbn [url].
  destruct (url c); cbn; try reflexivity; try discriminate.
  - destruct b; reflexivity.
  - destruct (Qeq_bool q 0); reflexivity.
Qed.

Lemma enhance_citation_url_kept (index : nat) (r1 r2 : Q) (c : Citation) :
  non_empty_string (url c) = true ->
  url (enhance_citation index r1 r2 c) = url c.
Proof.
  unfold enhance_citation; cbn [url].
  destruct (url c); cbn; try discriminate.
  intros ->. reflexivity.
Qed.

Lemma enhance_citation_url_empty (index : nat) (r1 r2 : Q) (c : Citation) :
  url c = JStr EmptyString ->
  url (enhance_citation index r1 r2 c) = JStr "#".
Proof.
  unfold enhance_citation; cbn [url]. intros ->. reflexivity.
Qed.

(** A url is kept exactly when it is a non-empty string. *)
Lemma enhance_citation_url_decided (index : nat) (r1 r2 : Q) (c : Citation) :
  url (enhance_citation index r1 r2 c)
  = (if non_empty_string (url c) then url c else JStr "#").
Proof.
  unfold enhance_citation; cbn [url].
  destruct (url c) as [| |b|x|s|o]; cbn; try reflexivity.
  - destruct b; reflexivity.
  - destruct (Qeq_bool x 0); reflexivity.
  - destruct s; reflexivity.
Qed.

(** The empty string is a string, and it is replaced as well: it is falsy. *)
Remark enhance_citation_empty_url (index : nat) (r1 r2 : Q) (c : Citation) :
  url c = JStr EmptyString ->
  url (enhance_citation index r1 r2 c) = JStr "#".
Proof.
  unfold enhance_citation; cbn [url]. intros ->. reflexivity.
Qed.

(** C9. For every citation list of length N that the search provider
    returns, post-processing gives a list of length N in which position [k]
    holds the placeholder url ["#"] whenever the url at position [k] was
    missing or not a string (the empty string counts as missing: it is
    falsy), and the url it had whenever that was a non-empty string.  Every
    url is decided: the placeholder lands at exactly the malformed
    positions and every valid url is unchanged. *)
Theorem malformed_url_is_replaced_in_place
  (w : World) (q : value) (m : string) (result : ProviderResponse)
  (cs : list Citation) :
  fetch_json "Perplexity" (perplexity_fetch w) = Returned result ->
  citations result = Some cs ->
  exists cs',
    callPerplexity w q m
    = Returned {| citations := Some cs';
                  usage := usage result;
                  content := content result |}
    /\ List.length cs' = List.length cs
    /\ forall k c,
         nth_error cs k = Some c ->
         exists c',
           nth_error cs' k = Some c'
           /\ (missing_or_non_string (url c) = true -> url c' = JStr "#")
           /\ (url c = JStr EmptyString -> url c' = JStr "#")
           /\ (non_empty_string (url c) = true -> url c' = url c)
           /\ url c'
              = (if non_empty_string (url c) then url c else JStr "#").
Proof.
  intros Hf Hc.
  exists (fst (enhance_citations (random w) 0 cs)).
  split; [|split].
  - unfold callPerplexity. rewrite Hf. cbn [bind].
    unfold enhance. rewrite Hc. reflexivity.
  - apply enhance_citations_length.
  - intros k c Hk. eexists. split.
    + apply enhance_citations_nth. exact Hk.
    + split; [apply enhance_citation_url_replaced|].
      split; [apply enhance_citation_url_empty|].
      split; [apply enhance_citation_url_kept|].
      apply enhance_citation_url_decided.
Qed.

Lemma index_nonneg (index : nat) : (0 <= inject_Z (Z.of_nat index))%Q.
Proof. unfold Qle; cbn. lia. Qed.

Lemma index_positive (index : nat) :
  (1 <= index)%nat -> (1 <= inject_Z (Z.of_nat index))%Q.
Proof. intros H. unfold Qle; cbn. lia. Qed.

(** The trust score lies in (0.6, 0.9], whatever the jitter. *)
Lemma trustScore_bounds (index : nat) (r1 r2 : Q) (c : Citation) :
  (0 <= r2 /\ r2 < 1)%Q ->
  exists t,
    trustScore (enhance_citation index r1 r2 c) = Some t
    /\ (0.6 < t /\ t <= 0.9)%Q.
Proof.
  intros [H0 H1]. eexists. split; [reflexivity|].
  destruct (Q.max_spec 0.4 (0.9 - r2 * 0.3)) as [[Hlt ->]|[Hle ->]]; lra.
Qed.

(** The relevance score is at least 0.3 and below 1.1; from position 1 on it
    is at most 1. *)
Lemma relevanceScore_bounds (index : nat) (r1 r2 : Q) (c : Citation) :
  (0 <= r1 /\ r1 < 1)%Q ->
  exists x,
    relevanceScore (enhance_citation index r1 r2 c) = Some x
    /\ (0.3 <= x /\ x < 1.1)%Q
    /\ ((1 <= index)%nat -> (x <= 1)%Q).
Proof.
  intros [H0 H1]. eexists. split; [reflexivity|].
  pose proof (index_nonneg index) as Hi.
  set (i := inject_Z (Z.of_nat index)) in *.
  split; [split|].
  - apply Q.le_max_l.
  - destruct (Q.max_spec 0.3 (1 - i * 0.1 + (r1 * 0.2 - 0.1)))
      as [[_ ->]|[_ ->]]; lra.
  - intros Hpos. apply index_positive in Hpos. fold i in Hpos.
    destruct (Q.max_spec 0.3 (1 - i * 0.1 + (r1 * 0.2 - 0.1)))
      as [[_ ->]|[_ ->]]; lra.
Qed.

End Citations.

Lemma malformed_url_is_replaced_in_place_witness :
  fetch_json "Perplexity" (perplexity_fetch Fixture.url_world)
  = Returned Fixture.url_answer
  /\ citations Fixture.url_answer = Some Fixture.url_citations
  /\ exists cs',
       callPerplexity Fixture.url_world (JStr "climate policy") "system"
       = Returned {| citations := Some cs';
                     usage := usage Fixture.url_answer;
                     content := content Fixture.url_answer |}
       /\ List.length cs' = List.length Fixture.url_citations
       /\ map url cs'
          = [ JStr "https://example.org/a"; JStr "#"; JStr "#"; JStr "#";
              JStr "https://example.org/e" ]
       /\ forall k c,
            nth_error Fixture.url_citations k = Some c ->
            exists c',
              nth_error cs' k = Some c'
              /\ (missing_or_non_string (url c) = true -> url c' = JStr "#")
              /\ (url c = JStr EmptyString -> url c' = JStr "#")
              /\ (non_empty_string (url c) = true -> url c' = url c)
              /\ url c'
                 = (if non_empty_string (url c) then url c else JStr "#").
Proof.
  split; [reflexivity|]. split; [reflexivity|].
  destruct (malformed_url_is_replaced_in_place Fixture.url_world
              (JStr "climate policy") "system" Fixture.url_answer
              Fixture.url_citations eq_refl eq_refl)
    as (cs' & Hcall & Hlen & Hnth).
  exists cs'. split; [exact Hcall|]. split; [exact Hlen|].
  split; [|exact Hnth].
  injection Hcall as <-. reflexivity.
Defined.

(** C2 fails on the code at position 0: with [Math.random] giving 0.75 the
    generator is within [0, 1), and the relevance score of the first
    citation is 1 - 0 + (0.75 * 0.2 - 0.1) = 1.05, above 1. *)
Theorem relevanceScore_exceeds_one_at_position_0 :
  (0 <= 0.75 /\ 0.75 < 1)%Q
  /\ exists c x,
       Sample.first_citation
         (callPerplexity (Sample.world 0.75) (JStr "climate policy") "system")
       = Some c
       /\ relevanceScore c = Some x
       /\ (x == 1.05)%Q
       /\ (1 < x)%Q.
Proof.
  split; [split; [discriminate|reflexivity]|].
  eexists. eexists. split; [reflexivity|]. split; [reflexivity|].
  split; reflexivity.
Qed.

(** * Further properties of the handler *)

Section HandlerAnswers.

Variable proto : string -> bool.

Lemma run_step_body (w : World) (cs : member) (q : value) (prev : History)
  (b : Body) :
  run_step w cs q prev = Returned b ->
  b = BodyEmpty \/ exists r, b = BodyResult r.
Proof.
  unfold run_step.
  destruct (is_step cs "initial_research").
  { unfold initial_research, callPerplexity.
    destruct (fetch_json "Perplexity" (perplexity_fetch w)); cbn;
      intros H; [injection H as <-; eauto|discriminate]. }
  destruct (is_step cs "deep_analysis").
  { unfold deep_analysis, callGemini.
    destruct (fetch_json "Gemini" (gemini_fetch w)); cbn;
      intros H; [injection H as <-; eauto|discriminate]. }
  destruct (is_step cs "classification_tagging").
  { unfold classification_tagging, callOpenAI.
    destruct (fetch_json "OpenAI" (openai_fetch w)); cbn;
      intros H; [injection H as <-; eauto|discriminate]. }
  destruct (is_step cs "synthesis_validation").
  { unfold synthesis_validation, callPerplexity, callGemini.
    destruct (fetch_json "Perplexity" (perplexity_fetch w)),
      (fetch_json "Gemini" (gemini_fetch w)); cbn;
      intros H; try discriminate. injection H as <-; eauto. }
  destruct (is_step cs "final_report").
  { unfold final_report. intros H. injection H as <-; eauto. }
  intros H. injection H as <-. auto.
Qed.

(** X1. The handler answers with status 200, 400 or 500 only, and the body
    goes with the status: 200 carries the text "ok", the empty object or a
    step result, never an error; 400 carries "Query is required"; 500
    carries an error message. *)
Theorem handler_status_and_body (w : World) (req : Request) :
  (status (handler proto w req) = 200%Z
   /\ (body (handler proto w req) = BodyText "ok"
       \/ body (handler proto w req) = BodyEmpty
       \/ exists r, body (handler proto w req) = BodyResult r))
  \/ handler proto w req = mkResponse 400 (BodyError "Query is required")
  \/ exists e, handler proto w req = mkResponse 500 (BodyError e).
Proof.
  unfold handler.
  destruct (String.eqb (method req) "OPTIONS"); [left; cbn; auto|].
  destruct (json req) as [b|e]; cbn [bind try_catch]; [|right; right; eauto].
  destruct (truthy (req_query b)); cbn [negb bind try_catch];
    [|right; left; reflexivity].
  destruct (Js.get proto researchSteps_names (step_or_default (req_step b)))
    as [found|e]; cbn [bind try_catch]; [|right; right; eauto].
  destruct (run_step w _ (req_query b) (req_previousData b)) as [r|e] eqn:E;
    cbn [bind try_catch]; [|right; right; eauto].
  left. cbn [status body]. split; [reflexivity|].
  destruct (run_step_body _ _ _ _ _ E) as [->|[r' ->]]; eauto.
Qed.

Lemma respond_status (o : outcome Body) :
  status (respond o) = 200%Z \/ status (respond o) = 500%Z.
Proof. destruct o; cbn; auto. Qed.

(** X2. A POST request is answered with status 400 exactly when its query is
    falsy (absent, null, empty, zero or false); the answer is then
    "Query is required", whatever the step, the history and the providers. *)
Theorem missing_query_is_rejected
  (w : World) (q s : value) (prev : History) :
  (status (handler proto w (post q s prev)) = 400%Z <-> truthy q = false)
  /\ (truthy q = false ->
      forall (w' : World) (s' : value) (prev' : History),
        handler proto w' (post q s' prev')
        = mkResponse 400 (BodyError "Query is required")).
Proof.
  split; [split|].
  - intros H. destruct (truthy q) eqn:Hq; [|reflexivity].
    rewrite handler_accepts in H by assumption.
    destruct (respond_status
                (bind (Js.get proto researchSteps_names (step_or_default s))
                   (fun found => run_step w (or_initial_research found) q prev)))
      as [H2|H5]; rewrite H in *; discriminate.
  - intros Hq. rewrite handler_rejects by assumption. reflexivity.
  - intros Hq w' s' prev'. apply handler_rejects. exact Hq.
Qed.

Lemma to_uint_nonnil (i : nat) : Nat.to_uint i <> Decimal.Nil.
Proof.
  pose proof (DecimalNat.Unsigned.to_of (Nat.to_uint i)) as H.
  rewrite DecimalNat.Unsigned.of_to in H. rewrite H.
  apply unorm_nonnil.
Qed.

(** The numeral of an index is read back as that index. *)
Lemma index_of_string_numeral (i : nat) :
  index_of_string (index_to_string i) = Some i.
Proof.
  unfold index_of_string, index_to_string.
  rewrite NilZero.usu by apply to_uint_nonnil.
  rewrite DecimalNat.Unsigned.of_to, String.eqb_refl. reflexivity.
Qed.

(** A string that is read as an index is the numeral of that index. *)
Lemma index_of_string_inv (s : string) (i : nat) :
  index_of_string s = Some i -> s = index_to_string i.
Proof.
  unfold index_of_string, index_to_string.
  destruct (NilZero.uint_of_string s) as [u|]; [|discriminate].
  destruct (String.eqb_spec
              (NilZero.string_of_uint (Nat.to_uint (Nat.of_uint u))) s)
    as [Heq|]; [|discriminate].
  intros H. injection H as <-. symmetry. exact Heq.
Qed.

(** X3. A step given as a string is converted like any property key: the
    decimal numeral of an index selects the same branch as the number (so
    ["2"] runs step 2), and a string is read as an index only if it is such
    a numeral (["02"] is not). *)
Theorem string_step_acts_as_number
  (w : World) (q : value) (prev : History) (i : nat) :
  handler proto w (post q (JStr (index_to_string i)) prev)
  = handler proto w (post q (JNum (inject_Z (Z.of_nat i))) prev)
  /\ forall s, index_of_string s = Some i -> s = index_to_string i.
Proof.
  split; [|intros s Hs; apply index_of_string_inv; exact Hs].
  destruct (truthy q) eqn:Hq.
  - rewrite !handler_accepts by assumption.
    cbn [step_or_default]. rewrite get_index.
    cbn [Js.get bind]. unfold get_named.
    rewrite index_of_string_numeral. reflexivity.
  - rewrite !handler_rejects by assumption. reflexivity.
Qed.

(** X4. A step that is no index but names the array's own [length] or a
    member of its prototype chain takes no branch at all: the answer is
    status 200 with the empty object, and no provider is called. *)
Theorem property_name_step_gives_empty_object
  (w : World) (q : value) (s : string) (prev : History) :
  truthy q = true ->
  index_of_string s = None ->
  s = "length" \/ proto s = true ->
  handler proto w (post q (JStr s) prev) = mkResponse 200 BodyEmpty.
Proof.
  intros Hq Hi Hs. rewrite handler_accepts by assumption.
  cbn [step_or_default Js.get bind]. unfold get_named. rewrite Hi.
  destruct (String.eqb_spec s "length") as [->|Hn].
  - reflexivity.
  - destruct Hs as [Hs|Hs]; [contradiction|]. rewrite Hs. reflexivity.
Qed.

End HandlerAnswers.

Lemma property_name_step_gives_empty_object_witness :
  truthy (JStr "climate policy") = true
  /\ index_of_string "map" = None
  /\ ("map" = "length" \/ Sample.proto "map" = true)
  /\ handler Sample.proto Sample.perplexity_down
       (post (JStr "climate policy") (JStr "map") None)
     = mkResponse 200 BodyEmpty.
Proof.
  assert (H : "map" = "length" \/ Sample.proto "map" = true)
    by (right; reflexivity).
  split; [reflexivity|]. split; [reflexivity|]. split; [exact H|].
  apply (property_name_step_gives_empty_object Sample.proto
           Sample.perplexity_down (JStr "climate policy") "map" None);
    [reflexivity | reflexivity | exact H].
Defined.

(** * What a step result contributes to the report *)

Section ResultsInTheReport.

Variable proto : string -> bool.

Lemma respond_result_inv (o : outcome Body) (r : StepResult) :
  respond o = mkResponse 200 (BodyResult r) -> o = Returned (BodyResult r).
Proof.
  destruct o as [b|e]; cbn; intros H; [|discriminate].
  injection H as ->. reflexivity.
Qed.

Lemma handler_result_inv (w : World) (q : value) (prev : History) (i : nat)
  (r : StepResult) :
  handler proto w (post q (JNum (inject_Z (Z.of_nat i))) prev)
  = mkResponse 200 (BodyResult r) ->
  step_body w q prev i = Returned (BodyResult r).
Proof.
  intros H. destruct (truthy q) eqn:Hq.
  - rewrite handler_at_index in H by assumption.
    apply respond_result_inv. exact H.
  - rewrite handler_rejects in H by assumption. discriminate H.
Qed.

Lemma step_body_facts (w : World) (q : value) (prev : History) (i : nat)
  (r : StepResult) :
  (i <= 4)%nat ->
  step_body w q prev i = Returned (BodyResult r) ->
  step r = Z.of_nat i
  /\ step_confidence (toStepData r) = reported_confidence i
  /\ ((3 <= i)%nat ->
      spec_sources (toStepData r) = 0%Z /\ spec_tokens (toStepData r) = 0%Z).
Proof.
  intros Hi.
  destruct i as [|[|[|[|[|i]]]]]; try lia; cbn [step_body].
  - unfold initial_research, callPerplexity.
    destruct (fetch_json "Perplexity" (perplexity_fetch w)); cbn;
      intros H; [injection H as <-|discriminate].
    repeat split; lia.
  - unfold deep_analysis, callGemini.
    destruct (fetch_json "Gemini" (gemini_fetch w)); cbn;
      intros H; [injection H as <-|discriminate].
    repeat split; lia.
  - unfold classification_tagging, callOpenAI.
    destruct (fetch_json "OpenAI" (openai_fetch w)); cbn;
      intros H; [injection H as <-|discriminate].
    repeat split; lia.
  - unfold synthesis_validation, callPerplexity, callGemini.
    destruct (fetch_json "Perplexity" (perplexity_fetch w)),
      (fetch_json "Gemini" (gemini_fetch w)); cbn;
      intros H; try discriminate. injection H as <-.
    repeat split.
  - unfold final_report. intros H. injection H as <-. repeat split.
Qed.

(** X5. The metadata of the initial-research result counts what the search
    provider returned: [sourcesFound] is the number of citations of the
    answer (post-processing keeps their number) and [tokensUsed] its
    [usage.total_tokens], zero where absent; these are also the amounts the
    final report adds for this step. *)
Theorem initial_research_counts
  (w : World) (q : value) (prev : History) (result : ProviderResponse) :
  truthy q = true ->
  fetch_json "Perplexity" (perplexity_fetch w) = Returned result ->
  exists r,
    handler proto w (post q (JNum 0) prev) = mkResponse 200 (BodyResult r)
    /\ metadata r
       = MetaInitial
           (match citations result with
            | Some cs => Z.of_nat (List.length cs)
            | None => 0%Z
            end)
           (match usage result with
            | Some {| total_tokens := Some n |} => n
            | _ => 0%Z
            end)
           0.75
    /\ spec_sources (toStepData r)
       = match citations result with
         | Some cs => Z.of_nat (List.length cs)
         | None => 0%Z
         end
    /\ spec_tokens (toStepData r)
       = match usage result with
         | Some {| total_tokens := Some n |} => n
         | _ => 0%Z
         end.
Proof.
  intros Hq Hf.
  change (JNum 0) with (JNum (inject_Z (Z.of_nat 0))).
  rewrite handler_at_index by assumption. cbn [step_body].
  unfold initial_research, callPerplexity. rewrite Hf. cbn [bind].
  eexists. split; [reflexivity|].
  cbn [metadata toStepData spec_sources spec_tokens StepData.data
         data payload_citations payload_usage].
  unfold enhance.
  destruct (citations result) as [cs|] eqn:Hc; cbn [citations usage];
    rewrite ?Hc, ?enhance_citations_length, ?or_zero_id;
    (destruct (usage result) as [[[n|]]|]; cbn [total_tokens];
     rewrite ?or_zero_id; repeat split).
Qed.

Lemma fold_aggregate_steps (steps : list StepData.t) :
  forall report,
    researchSteps (fold_left aggregate_step steps report)
    = (researchSteps report ++ map step_summary steps)%list
    /\ qualityMetrics (fold_left aggregate_step steps report)
       = qualityMetrics report
    /\ recommendations (fold_left aggregate_step steps report)
       = recommendations report
    /\ query (fold_left aggregate_step steps report) = query report
    /\ timestamp (fold_left aggregate_step steps report) = timestamp report
    /\ keyFindings (fold_left aggregate_step steps report)
       = keyFindings report
    /\ knowledgeGraph (fold_left aggregate_step steps report)
       = knowledgeGraph report.
Proof.
  induction steps as [|stepData steps IH]; intros report;
    cbn [fold_left map].
  - rewrite List.app_nil_r. repeat split.
  - destruct (IH (aggregate_step report stepData))
      as (H1 & H2 & H3 & H4 & H5 & H6 & H7).
    rewrite H1, H2, H3, H4, H5, H6, H7.
    unfold aggregate_step.
    destruct (StepData.data stepData) as [d|];
      [destruct (payload_citations d), (payload_usage d)|];
      cbn; rewrite <- List.app_assoc; repeat split.
Qed.

(** The confidence of a summary, from what the element declares. *)
Lemma step_summary_confidence (stepData : StepData.t) :
  (forall c, declared_confidence stepData = Some c -> ~ (c == 0)%Q ->
             sum_confidence (step_summary stepData) = c)
  /\ (forall c, declared_confidence stepData = Some c -> (c == 0)%Q ->
                sum_confidence (step_summary stepData) = 0.8)
  /\ (declared_confidence stepData = None ->
      sum_confidence (step_summary stepData) = 0.8).
Proof.
  unfold step_summary, step_confidence, declared_confidence;
    cbn [sum_confidence].
  destruct (StepData.metadata stepData) as [m|];
    [destruct (confidence_of m) as [c0|]|].
  - split; [|split].
    + intros c Hc Hn. injection Hc as ->.
      destruct (Qeq_bool c 0) eqn:E; [|reflexivity].
      apply Qeq_bool_eq in E. contradiction.
    + intros c Hc Hz. injection Hc as ->.
      apply Qeq_eq_bool in Hz. rewrite Hz. reflexivity.
    + intros Hc. discriminate Hc.
  - split; [|split]; intros; try discriminate; reflexivity.
  - split; [|split]; intros; try discriminate; reflexivity.
Qed.

(** X6. The report keeps one summary per history element, in the order of
    the history: the summary at position [k] has the step and the service
    of the element at position [k], and as confidence the one the element
    declares in its metadata, or 0.8 where it declares none or zero.  The
    loop leaves the rest of the report as initialised: the query, the
    timestamp, the four quality metrics, the three recommendations, and
    the empty key findings and knowledge graph. *)
Theorem report_keeps_one_summary_per_step
  (w : World) (q : value) (steps : list StepData.t) :
  researchSteps (generateFinalReport w q (Some steps)) = map step_summary steps
  /\ List.length (researchSteps (generateFinalReport w q (Some steps)))
     = List.length steps
  /\ (forall k stepData,
        nth_error steps k = Some stepData ->
        exists s,
          nth_error (researchSteps (generateFinalReport w q (Some steps))) k
          = Some s
          /\ sum_step s = StepData.step stepData
          /\ sum_service s = StepData.service stepData
          /\ (forall c, declared_confidence stepData = Some c ->
                        ~ (c == 0)%Q -> sum_confidence s = c)
          /\ (forall c, declared_confidence stepData = Some c ->
                        (c == 0)%Q -> sum_confidence s = 0.8)
          /\ (declared_confidence stepData = None -> sum_confidence s = 0.8))
  /\ qualityMetrics (generateFinalReport w q (Some steps))
     = {| factualAccuracy := 0.95; sourceReliability := 0.88;
          analysisDepth := 0.92; synthesisQuality := 0.9 |}
  /\ recommendations (generateFinalReport w q (Some steps))
     = [ "Рекомендуется дальнейшее исследование выявленных трендов";
         "Необходимо мониторить изменения в ключевых источниках";
         "Полезно расширить анализ смежных тематик" ]
  /\ keyFindings (generateFinalReport w q (Some steps)) = []
  /\ knowledgeGraph (generateFinalReport w q (Some steps))
     = {| nodes := []; edges := []; topics := [] |}
  /\ query (generateFinalReport w q (Some steps)) = q
  /\ timestamp (generateFinalReport w q (Some steps)) = now w.
Proof.
  unfold generateFinalReport.
  destruct (fold_aggregate_steps steps (initial_report w q))
    as (H1 & H2 & H3 & H4 & H5 & H6 & H7).
  rewrite H1, H2, H3, H4, H5, H6, H7. cbn [researchSteps initial_report app].
  split; [reflexivity|]. split; [apply length_map|].
  split; [|repeat split].
  intros k stepData Hk. exists (step_summary stepData).
  split; [rewrite nth_error_map, Hk; reflexivity|].
  split; [reflexivity|]. split; [reflexivity|].
  apply step_summary_confidence.
Qed.

(** X7. The confidence that the report shows for a step is the [confidence]
    of the step's metadata: 0.75, 0.85 and 0.9 for steps 0 to 2.  The
    results of steps 3 and 4 declare no [confidence] (step 3 declares
    [finalConfidence] 0.95), so the report shows the default 0.8 for
    them. *)
Theorem reported_confidence_of_results
  (w : World) (q : value) (prev : History) (i : nat) (r : StepResult) :
  (i <= 4)%nat ->
  handler proto w (post q (JNum (inject_Z (Z.of_nat i))) prev)
  = mkResponse 200 (BodyResult r) ->
  sum_confidence (step_summary (toStepData r)) = reported_confidence i
  /\ (i = 3%nat -> metadata r = MetaSynthesis 45 3 0.95).
Proof.
  intros Hi H. apply handler_result_inv in H.
  split.
  - apply (step_body_facts w q prev i r Hi H).
  - intros ->. cbn [step_body] in H.
    unfold synthesis_validation, callPerplexity, callGemini in H.
    destruct (fetch_json "Perplexity" (perplexity_fetch w)),
      (fetch_json "Gemini" (gemini_fetch w)); cbn in H; try discriminate.
    injection H as <-. reflexivity.
Qed.

(** X8. The results of steps 3 and 4 add nothing to the totals of the
    report: the citations and the token usage of the validation call lie
    under [data.validation], where the report does not look. *)
Theorem later_steps_add_nothing_to_totals
  (w : World) (q : value) (prev : History) (i : nat) (r : StepResult) :
  (3 <= i <= 4)%nat ->
  handler proto w (post q (JNum (inject_Z (Z.of_nat i))) prev)
  = mkResponse 200 (BodyResult r) ->
  forall report : FinalReport,
    totalSources (aggregate_step report (toStepData r)) = totalSources report
    /\ totalTokens (aggregate_step report (toStepData r)) = totalTokens report.
Proof.
  intros Hi H report. apply handler_result_inv in H.
  destruct (step_body_facts w q prev i r (proj2 Hi) H) as (_ & _ & Hz).
  destruct (Hz (proj1 Hi)) as [Hs Ht].
  rewrite aggregate_step_sources, aggregate_step_tokens, Hs, Ht.
  split; lia.
Qed.

End ResultsInTheReport.

Lemma initial_research_counts_witness :
  truthy (JStr "climate policy") = true
  /\ fetch_json "Perplexity" (perplexity_fetch Fixture.world)
     = Returned Fixture.raw
  /\ exists r,
       handler Sample.proto Fixture.world
         (post (JStr "climate policy") (JNum 0) None)
       = mkResponse 200 (BodyResult r)
       /\ metadata r = MetaInitial 10 120 0.75.
Proof.
  split; [reflexivity|]. split; [reflexivity|].
  destruct (initial_research_counts Sample.proto Fixture.world
              (JStr "climate policy") None Fixture.raw
              eq_refl eq_refl) as (r & Hr & Hm & _).
  exists r. split; [exact Hr|exact Hm].
Defined.

Lemma reported_confidence_of_results_witness :
  (3 <= 4)%nat
  /\ handler Sample.proto (Sample.world 0.5)
       (post (JStr "climate policy") (JNum (inject_Z (Z.of_nat 3))) None)
     = mkResponse 200 (BodyResult Fixture.step3)
  /\ sum_confidence (step_summary (toStepData Fixture.step3)) = 0.8
  /\ metadata Fixture.step3 = MetaSynthesis 45 3 0.95.
Proof.
  assert (H : handler Sample.proto (Sample.world 0.5)
                (post (JStr "climate policy")
                   (JNum (inject_Z (Z.of_nat 3))) None)
              = mkResponse 200 (BodyResult Fixture.step3)) by reflexivity.
  split; [lia|]. split; [exact H|].
  destruct (reported_confidence_of_results Sample.proto (Sample.world 0.5)
              (JStr "climate policy") None 3 Fixture.step3
              (le_S 3 3 (le_n 3)) H) as [Hc Hm].
  split; [exact Hc|exact (Hm eq_refl)].
Defined.

Lemma later_steps_add_nothing_to_totals_witness :
  (3 <= 3 <= 4)%nat
  /\ handler Sample.proto (Sample.world 0.5)
       (post (JStr "climate policy") (JNum (inject_Z (Z.of_nat 3))) None)
     = mkResponse 200 (BodyResult Fixture.step3)
  /\ payload_citations (data Fixture.step3) = None
  /\ totalSources
       (aggregate_step
          (initial_report (Sample.world 0.5) (JStr "climate policy"))
          (toStepData Fixture.step3))
     = 0%Z.
Proof.
  assert (H : handler Sample.proto (Sample.world 0.5)
                (post (JStr "climate policy")
                   (JNum (inject_Z (Z.of_nat 3))) None)
              = mkResponse 200 (BodyResult Fixture.step3)) by reflexivity.
  assert (Hi : (3 <= 3 <= 4)%nat) by lia.
  split; [exact Hi|]. split; [exact H|]. split; [reflexivity|].
  apply (later_steps_add_nothing_to_totals Sample.proto (Sample.world 0.5)
           (JStr "climate policy") None 3 Fixture.step3 Hi H
           (initial_report (Sample.world 0.5) (JStr "climate policy"))).
Defined.

(** * Further properties of the citation post-processing *)

Section CitationScores.

(** Every citation of an answer of the adapter is the enhancement of the
    citation the provider returned at the same position, with the random
    numbers [2k] and [2k + 1]. *)
Lemma callPerplexity_citation_inv (w : World) (q : value) (m : string)
  (result : ProviderResponse) (cs : list Citation) (k : nat) (c : Citation) :
  callPerplexity w q m = Returned result ->
  citations result = Some cs ->
  nth_error cs k = Some c ->
  exists c0,
    c = enhance_citation k (random w (2 * k)%nat) (random w (2 * k + 1)%nat) c0.
Proof.
  unfold callPerplexity.
  destruct (fetch_json "Perplexity" (perplexity_fetch w)) as [raw|e];
    cbn [bind]; [|discriminate].
  intros H. injection H as <-. unfold enhance.
  destruct (citations raw) as [cs0|] eqn:Hraw; cbn [citations].
  - intros H. injection H as <-. intros Hk.
    assert (Hlt : (k < List.length cs0)%nat).
    { rewrite <- (enhance_citations_length cs0 (random w) 0).
      apply nth_error_Some. congruence. }
    destruct (nth_error cs0 k) as [c0|] eqn:Hc0.
    + exists c0.
      rewrite (enhance_citations_nth cs0 (random w) 0 k c0 Hc0) in Hk.
      injection Hk as <-. reflexivity.
    + apply nth_error_None in Hc0. lia.
  - rewrite Hraw. discriminate.
Qed.

(** X9. With [Math.random] in [0, 1), every citation the adapter returns has
    a trust score in (0.6, 0.9] and a relevance score in [0.3, 1.1], at most
    1 from the second citation on. *)
Theorem callPerplexity_score_bounds (w : World) (q : value) (m : string)
  (result : ProviderResponse) (cs : list Citation) (k : nat) (c : Citation) :
  in_unit_interval (random w) ->
  callPerplexity w q m = Returned result ->
  citations result = Some cs ->
  nth_error cs k = Some c ->
  exists t x,
    trustScore c = Some t /\ relevanceScore c = Some x
    /\ (0.6 < t /\ t <= 0.9)%Q
    /\ (0.3 <= x /\ x <= 1.1)%Q
    /\ ((1 <= k)%nat -> (x <= 1)%Q).
Proof.
  intros Hg Hcall Hcs Hk.
  destruct (callPerplexity_citation_inv w q m result cs k c Hcall Hcs Hk)
    as [c0 ->].
  destruct (trustScore_bounds k (random w (2 * k)%nat)
              (random w (2 * k + 1)%nat) c0 (Hg _)) as (t & Ht & Htb).
  destruct (relevanceScore_bounds k (random w (2 * k)%nat)
              (random w (2 * k + 1)%nat) c0 (Hg _)) as (x & Hx & Hxb & Hx1).
  exists t, x. repeat split; try assumption; try apply Htb; try apply Hxb.
  apply Qlt_le_weak, Hxb.
Qed.

(** X10. From the ninth citation on (position 8), the decay has used up the
    whole range: the relevance score is the floor 0.3, whatever the
    jitter. *)
Theorem relevance_is_floor_from_position_8 (w : World) (q : value)
  (m : string) (result : ProviderResponse) (cs : list Citation) (k : nat)
  (c : Citation) :
  in_unit_interval (random w) ->
  callPerplexity w q m = Returned result ->
  citations result = Some cs ->
  nth_error cs k = Some c ->
  (8 <= k)%nat ->
  exists x, relevanceScore c = Some x /\ (x == 0.3)%Q.
Proof.
  intros Hg Hcall Hcs Hk H8.
  destruct (callPerplexity_citation_inv w q m result cs k c Hcall Hcs Hk)
    as [c0 ->].
  eexists. split; [reflexivity|].
  destruct (Hg (2 * k)%nat) as [H0 H1].
  assert (Hi : (8 <= inject_Z (Z.of_nat k))%Q).
  { unfold Qle; cbn. lia. }
  set (i := inject_Z (Z.of_nat k)) in *.
  set (r := random w (2 * k)%nat) in *.
  destruct (Q.max_spec 0.3 (1 - i * 0.1 + (r * 0.2 - 0.1)))
    as [[Hlt _]|[_ ->]]; [lra|reflexivity].
Qed.

(** X11. Every citation the adapter returns has a url that is a non-empty
    string and a truthy category, which is the citation's source where that
    is truthy and ["web"] otherwise; the source itself is not changed. *)
Theorem enhanced_citations_are_well_formed (w : World) (q : value)
  (m : string) (result : ProviderResponse) (cs : list Citation) (k : nat)
  (c : Citation) :
  callPerplexity w q m = Returned result ->
  citations result = Some cs ->
  nth_error cs k = Some c ->
  non_empty_string (url c) = true
  /\ truthy (category c) = true
  /\ category c = (if truthy (source c) then source c else JStr "web").
Proof.
  intros Hcall Hcs Hk.
  destruct (callPerplexity_citation_inv w q m result cs k c Hcall Hcs Hk)
    as [c0 ->].
  unfold enhance_citation; cbn [url category source]. split; [|split].
  - destruct (url c0) as [| |b|x|s|s]; cbn; try reflexivity.
    + destruct b; reflexivity.
    + destruct (Qeq_bool x 0); reflexivity.
    + destruct s; reflexivity.
  - unfold or_else. destruct (truthy (source c0)) eqn:Hs; [exact Hs|reflexivity].
  - reflexivity.
Qed.

End CitationScores.

Lemma fixture_random_in_unit_interval : in_unit_interval (random Fixture.world).
Proof.
  intros n. cbn. destruct (Nat.even n); split; (discriminate || reflexivity).
Defined.

Lemma callPerplexity_score_bounds_witness :
  in_unit_interval (random Fixture.world)
  /\ callPerplexity Fixture.world (JStr "climate policy") "system"
     = Returned Fixture.enhanced
  /\ citations Fixture.enhanced = Some Fixture.enhanced_citations
  /\ nth_error Fixture.enhanced_citations 8 = Some Fixture.ninth
  /\ exists t x,
       trustScore Fixture.ninth = Some t /\ relevanceScore Fixture.ninth = Some x
       /\ (0.6 < t /\ t <= 0.9)%Q
       /\ (0.3 <= x /\ x <= 1.1)%Q
       /\ ((1 <= 8)%nat -> (x <= 1)%Q).
Proof.
  split; [exact fixture_random_in_unit_interval|].
  split; [reflexivity|]. split; [reflexivity|]. split; [reflexivity|].
  apply (callPerplexity_score_bounds Fixture.world (JStr "climate policy")
           "system" Fixture.enhanced Fixture.enhanced_citations 8
           Fixture.ninth fixture_random_in_unit_interval);
    reflexivity.
Defined.

Lemma relevance_is_floor_from_position_8_witness :
  in_unit_interval (random Fixture.world)
  /\ callPerplexity Fixture.world (JStr "climate policy") "system"
     = Returned Fixture.enhanced
  /\ citations Fixture.enhanced = Some Fixture.enhanced_citations
  /\ nth_error Fixture.enhanced_citations 8 = Some Fixture.ninth
  /\ (8 <= 8)%nat
  /\ exists x, relevanceScore Fixture.ninth = Some x /\ (x == 0.3)%Q.
Proof.
  split; [exact fixture_random_in_unit_interval|].
  split; [reflexivity|]. split; [reflexivity|]. split; [reflexivity|].
  split; [lia|].
  apply (relevance_is_floor_from_position_8 Fixture.world
           (JStr "climate policy") "system" Fixture.enhanced
           Fixture.enhanced_citations 8 Fixture.ninth
           fixture_random_in_unit_interval);
    [reflexivity | reflexivity | reflexivity | lia].
Defined.

Lemma enhanced_citations_are_well_formed_witness :
  callPerplexity Fixture.world (JStr "climate policy") "system"
  = Returned Fixture.enhanced
  /\ citations Fixture.enhanced = Some Fixture.enhanced_citations
  /\ nth_error Fixture.enhanced_citations 1
     = Some (enhance_citation 1 0.25 0.75 (Sample.citation Null))
  /\ url (enhance_citation 1 0.25 0.75 (Sample.citation Null)) = JStr "#"
  /\ non_empty_string (url (enhance_citation 1 0.25 0.75 (Sample.citation Null)))
     = true.
Proof.
  split; [reflexivity|]. split; [reflexivity|]. split; [reflexivity|].
  split; [reflexivity|].
  apply (enhanced_citations_are_well_formed Fixture.world
           (JStr "climate policy") "system" Fixture.enhanced
           Fixture.enhanced_citations 1
           (enhance_citation 1 0.25 0.75 (Sample.citation Null)));
    reflexivity.
Defined.

(** * Further properties of the caller's loop *)

Section RunProperties.

Variable proto : string -> bool.

Lemma loop_turn_pushed (w : World) (query : string) (i : nat)
  (hist : list StepData.t) :
  loop_turn proto w query i hist
  = (hist ++ pushed (invoke proto w query i hist))%list.
Proof.
  unfold loop_turn, pushed.
  destruct (invoke_failed (invoke proto w query i hist)).
  - rewrite List.app_nil_r. reflexivity.
  - destruct (body (invoke proto w query i hist)); reflexivity.
Qed.

Lemma loop_history (worlds : nat -> World) (query : string) (turns : nat) :
  forall from hist,
    snd (loop proto worlds query turns from hist)
    = (hist
       ++ flat_map (fun call => pushed (snd call))
            (fst (loop proto worlds query turns from hist)))%list.
Proof.
  induction turns as [|turns IH]; intros from hist.
  - cbn. rewrite List.app_nil_r. reflexivity.
  - rewrite loop_step. cbn [fst snd flat_map].
    rewrite IH, loop_turn_pushed, <- List.app_assoc. reflexivity.
Qed.

(** X12. The history of a run only grows, and by the answers alone: after
    any number of turns it is the history the loop started from, followed
    by the data of the invocations that did not fail, in the order of the
    invocations; a failed invocation adds nothing and removes nothing. *)
Theorem history_is_appended_results
  (worlds : nat -> World) (query : string) (turns from : nat)
  (hist : list StepData.t) :
  snd (loop proto worlds query turns from hist)
  = (hist
     ++ flat_map (fun call => pushed (snd call))
          (fst (loop proto worlds query turns from hist)))%list
  /\ forall call,
       In call (fst (loop proto worlds query turns from hist)) ->
       invoke_failed (snd call) = true -> pushed (snd call) = [].
Proof.
  split; [apply loop_history|].
  intros call _ Hf. unfold pushed. rewrite Hf. reflexivity.
Qed.

Lemma step_body_returns_result (w : World) (q : value) (prev : History)
  (i : nat) (b : Body) :
  step_body w q prev i = Returned b -> exists r, b = BodyResult r.
Proof.
  destruct i as [|[|[|[|[|i]]]]]; cbn [step_body];
    unfold initial_research, deep_analysis, classification_tagging,
      synthesis_validation, final_report, callPerplexity, callGemini,
      callOpenAI.
  1, 6: destruct (fetch_json "Perplexity" (perplexity_fetch w)); cbn;
    intros H; [injection H as <-; eauto|discriminate].
  - destruct (fetch_json "Gemini" (gemini_fetch w)); cbn;
      intros H; [injection H as <-; eauto|discriminate].
  - destruct (fetch_json "OpenAI" (openai_fetch w)); cbn;
      intros H; [injection H as <-; eauto|discriminate].
  - destruct (fetch_json "Perplexity" (perplexity_fetch w)),
      (fetch_json "Gemini" (gemini_fetch w)); cbn;
      intros H; try discriminate. injection H as <-; eauto.
  - intros H. injection H as <-; eauto.
Qed.

(** An invocation of the loop fails or yields a result for its own step. *)
Lemma invoke_cases (w : World) (query : string) (i : nat)
  (hist : list StepData.t) :
  is_empty query = false ->
  (i <= 4)%nat ->
  (invoke_failed (invoke proto w query i hist) = true
   /\ pushed (invoke proto w query i hist) = [])
  \/ (invoke_failed (invoke proto w query i hist) = false
      /\ exists r,
           invoke proto w query i hist = mkResponse 200 (BodyResult r)
           /\ pushed (invoke proto w query i hist) = [toStepData r]
           /\ step r = Z.of_nat i).
Proof.
  intros Hq Hi.
  destruct (invoke_at_index proto w query i hist Hq) as [prev Hinv].
  rewrite Hinv. unfold pushed.
  destruct (step_body w (JStr query) prev i) as [b|e] eqn:E.
  - right. destruct (step_body_returns_result _ _ _ _ _ E) as [r ->].
    split; [reflexivity|]. exists r. repeat split.
    apply (step_body_facts w (JStr query) prev i r Hi E).
  - left. split; reflexivity.
Qed.

(** X13. The elements of the history of a run carry the step indices of the
    invocations that succeeded, in increasing order: no step appears twice,
    and a failed step leaves a gap rather than a placeholder. *)
Theorem history_steps_are_the_successful_steps
  (worlds : nat -> World) (query : string) :
  is_empty query = false ->
  map StepData.step (snd (executeMultiStepResearch proto worlds query))
  = map (fun call => Some (Z.of_nat (fst call)))
      (filter (fun call => negb (invoke_failed (snd call)))
         (fst (executeMultiStepResearch proto worlds query)))
  /\ map fst (fst (executeMultiStepResearch proto worlds query))
     = [0; 1; 2; 3; 4]%nat.
Proof.
  intros Hq. split; [|apply executeMultiStepResearch_calls].
  unfold executeMultiStepResearch.
  rewrite loop_history. cbn [app].
  assert (Hgen : forall turns from hist,
             (from + turns <= 5)%nat ->
             map StepData.step
               (flat_map (fun call => pushed (snd call))
                  (fst (loop proto worlds query turns from hist)))
             = map (fun call => Some (Z.of_nat (fst call)))
                 (filter (fun call => negb (invoke_failed (snd call)))
                    (fst (loop proto worlds query turns from hist)))).
  { induction turns as [|turns IH]; intros from hist Hb.
    - reflexivity.
    - rewrite loop_step. cbn [fst snd flat_map filter].
      rewrite map_app, IH by lia.
      destruct (invoke_cases (worlds from) query from hist Hq)
        as [[Hf Hp]|[Hf (r & _ & Hp & Hs)]]; [lia| |];
        rewrite Hf, Hp; cbn [negb map app].
      + reflexivity.
      + cbn [toStepData StepData.step]. rewrite Hs. reflexivity. }
  apply Hgen. lia.
Qed.

Lemma loop_app (worlds : nat -> World) (query : string) (n m : nat) :
  forall from hist,
    loop proto worlds query (n + m) from hist
    = ((fst (loop proto worlds query n from hist)
        ++ fst (loop proto worlds query m (from + n)
                  (snd (loop proto worlds query n from hist))))%list,
       snd (loop proto worlds query m (from + n)
              (snd (loop proto worlds query n from hist)))).
Proof.
  induction n as [|n IH]; intros from hist.
  - cbn [Nat.add loop fst snd app]. rewrite Nat.add_0_r.
    destruct (loop proto worlds query m from hist); reflexivity.
  - change (S n + m)%nat with (S (n + m)).
    rewrite !loop_step, IH. cbn [fst snd].
    replace (S from + n)%nat with (from + S n)%nat by lia.
    reflexivity.
Qed.

Lemma pushed_length (r : Response) : (List.length (pushed r) <= 1)%nat.
Proof.
  unfold pushed. destruct (invoke_failed r); [cbn; lia|].
  destruct (body r); cbn; lia.
Qed.

Lemma history_length_bound (worlds : nat -> World) (query : string)
  (turns : nat) :
  forall from hist,
    (List.length (snd (loop proto worlds query turns from hist))
     <= List.length hist + turns)%nat.
Proof.
  induction turns as [|turns IH]; intros from hist.
  - cbn. lia.
  - rewrite loop_step. cbn [snd].
    specialize (IH (S from) (loop_turn proto (worlds from) query from hist)).
    assert (Hturn : (List.length
                       (loop_turn proto (worlds from) query from hist)
                     <= S (List.length hist))%nat).
    { rewrite loop_turn_pushed, length_app.
      pose proof (pushed_length (invoke proto (worlds from) query from hist)).
      lia. }
    lia.
Qed.

Lemma final_results_snoc (hist : list StepData.t) (x : StepData.t) :
  final_results (hist ++ [x]) = StepData.data x.
Proof.
  unfold final_results.
  rewrite last_last. destruct hist; reflexivity.
Qed.

(** X14. Whatever the providers answer, a run with a query ends with the
    final report: the fifth invocation is answered with status 200, its
    result carries the report built over the history that steps 0 to 3
    left, the report has one summary per step that succeeded (at most
    four), and this report is what the caller displays as the result. *)
Theorem run_ends_with_report (worlds : nat -> World) (query : string) :
  is_empty query = false ->
  exists (hist : list StepData.t) (r : StepResult) (report : FinalReport),
    hist = snd (loop proto worlds query 4 0 [])
    /\ report
       = generateFinalReport (worlds 4%nat) (JStr query)
           (match hist with [] => None | _ :: _ => Some hist end)
    /\ last (fst (executeMultiStepResearch proto worlds query))
         (0%nat, mkResponse 0 BodyEmpty)
       = (4%nat, mkResponse 200 (BodyResult r))
    /\ data r = ReportData report
    /\ final_results (snd (executeMultiStepResearch proto worlds query))
       = Some (ReportData report)
    /\ List.length (researchSteps report) = List.length hist
    /\ (List.length hist <= 4)%nat.
Proof.
  intros Hq.
  set (hist := snd (loop proto worlds query 4 0 [])).
  set (prev := match hist with [] => None | _ :: _ => Some hist end).
  set (report := generateFinalReport (worlds 4%nat) (JStr query) prev).
  assert (Hinv : exists r,
             invoke proto (worlds 4%nat) query 4 hist
             = mkResponse 200 (BodyResult r)
             /\ data r = ReportData report).
  { unfold invoke. fold prev.
    rewrite handler_at_index by (cbn; rewrite Hq; reflexivity).
    cbn [step_body]. unfold final_report. fold report.
    eexists. split; reflexivity. }
  destruct Hinv as (r & Hr & Hd).
  exists hist, r, report.
  split; [reflexivity|]. split; [reflexivity|].
  unfold executeMultiStepResearch.
  change 5%nat with (4 + 1)%nat. rewrite loop_app. cbn [fst snd Nat.add].
  fold hist. rewrite loop_step. cbn [fst snd loop].
  rewrite last_last, Hr.
  split; [reflexivity|]. split; [exact Hd|].
  split.
  - rewrite loop_turn_pushed. unfold pushed. rewrite Hr. cbn [invoke_failed
      status response_ok Z.leb Z.compare Pos.compare Pos.compare_cont andb
      negb body].
    rewrite final_results_snoc. cbn [toStepData StepData.data].
    rewrite Hd. reflexivity.
  - split.
    + unfold report, prev. destruct hist as [|x hist'] eqn:Hh.
      * reflexivity.
      * destruct (fold_aggregate_totals (x :: hist')
                    (initial_report (worlds 4%nat) (JStr query)))
          as (_ & _ & Hn).
        unfold generateFinalReport. rewrite Hn. reflexivity.
    + pose proof (history_length_bound worlds query 4 0 []) as Hb.
      cbn [List.length Nat.add] in Hb. exact Hb.
Qed.

End RunProperties.

Lemma history_steps_are_the_successful_steps_witness :
  is_empty "climate policy" = false
  /\ map StepData.step
       (snd (executeMultiStepResearch Sample.proto (fun _ => Sample.gemini_down)
               "climate policy"))
     = [Some 0%Z; Some 2%Z; Some 4%Z].
Proof.
  split; [reflexivity|].
  rewrite (proj1 (history_steps_are_the_successful_steps Sample.proto
                    (fun _ => Sample.gemini_down) "climate policy" eq_refl)).
  vm_compute. reflexivity.
Defined.

Lemma run_ends_with_report_witness :
  is_empty "climate policy" = false
  /\ exists (hist : list StepData.t) (r : StepResult) (report : FinalReport),
       hist = snd (loop Sample.proto (fun _ => Sample.perplexity_down)
                     "climate policy" 4 0 [])
       /\ report
          = generateFinalReport Sample.perplexity_down (JStr "climate policy")
              (match hist with [] => None | _ :: _ => Some hist end)
       /\ last (fst (executeMultiStepResearch Sample.proto
                       (fun _ => Sample.perplexity_down) "climate policy"))
            (0%nat, mkResponse 0 BodyEmpty)
          = (4%nat, mkResponse 200 (BodyResult r))
       /\ data r = ReportData report
       /\ final_results
            (snd (executeMultiStepResearch Sample.proto
                    (fun _ => Sample.perplexity_down) "climate policy"))
          = Some (ReportData report)
       /\ List.length (researchSteps report) = List.length hist
       /\ (List.length hist <= 4)%nat.
Proof.
  split; [reflexivity|].
  apply (run_ends_with_report Sample.proto (fun _ => Sample.perplexity_down)
           "climate policy"); reflexivity.
Defined.

(** * The graph of a run *)

Section GraphProperties.

Variable proto : string -> bool.

(** One turn acts node by node: it keeps every id, completes the nodes of
    its own phase and leaves the status of the others. *)
Lemma turn_nodes_map (w : World) (query : string) (i : nat)
  (hist : list StepData.t) :
  exists g : GraphNode -> GraphNode,
    (forall nodes, turn_nodes proto w query i hist nodes = map g nodes)
    /\ forall node,
         node_id (g node) = node_id node
         /\ node_status (g node)
            = if String.eqb (node_id node) (phase_id i) then Completed
              else node_status node.
Proof.
  unfold turn_nodes.
  destruct (invoke_failed (invoke proto w query i hist)).
  - eexists. split.
    + intros nodes. unfold updateGraphNodeStatus.
      rewrite !map_map. reflexivity.
    + intros node. cbv beta.
      destruct (String.eqb (node_id node) (phase_id i)) eqn:E;
        cbn [with_status node_id]; rewrite ?E; cbn [with_status node_id];
        rewrite ?E; cbn; auto.
  - eexists. split.
    + intros nodes. unfold updateGraphNodeStatus, attach_data.
      rewrite !map_map. reflexivity.
    + intros node. cbv beta.
      destruct (String.eqb (node_id node) (phase_id i)) eqn:E;
        cbn [with_status node_id]; rewrite ?E; cbn [with_status node_id];
        rewrite ?E; cbn; auto.
Qed.

Lemma loop_nodes_statuses (worlds : nat -> World) (query : string)
  (turns : nat) :
  forall from hist nodes,
    map node_id (loop_nodes proto worlds query turns from hist nodes)
    = map node_id nodes
    /\ map node_status (loop_nodes proto worlds query turns from hist nodes)
       = map (fun node =>
                if existsb (fun k => String.eqb (node_id node) (phase_id k))
                     (seq from turns)
                then Completed
                else node_status node)
           nodes.
Proof.
  induction turns as [|turns IH]; intros from hist nodes; cbn [loop_nodes seq].
  - split; [reflexivity|]. cbn [existsb]. reflexivity.
  - destruct (turn_nodes_map (worlds from) query from hist) as (g & Hg & Hn).
    rewrite Hg.
    destruct (IH (S from) (loop_turn proto (worlds from) query from hist)
                (map g nodes)) as [Hid Hst].
    rewrite Hid, Hst, !map_map. split.
    + apply map_ext. intros node. apply Hn.
    + apply map_ext. intros node. cbn [existsb].
      destruct (Hn node) as [-> ->].
      destruct (String.eqb (node_id node) (phase_id from)); cbn [orb];
        [|reflexivity].
      destruct (existsb _ _); reflexivity.
Qed.

(** X15. At the end of a run every phase node of the graph is completed,
    whichever steps failed: the error status that the [catch] sets is
    overwritten by the update that follows it, so no node is left in the
    error (or active, or pending) status. *)
Theorem all_phase_nodes_end_completed
  (worlds : nat -> World) (query : string) :
  map node_status (loop_nodes proto worlds query 5 0 [] initial_nodes)
  = [Completed; Completed; Completed; Completed; Completed]
  /\ map node_id (loop_nodes proto worlds query 5 0 [] initial_nodes)
     = map phase_id [0; 1; 2; 3; 4]%nat.
Proof.
  destruct (loop_nodes_statuses worlds query 5 0 [] initial_nodes)
    as [Hid Hst].
  rewrite Hid, Hst. split; reflexivity.
Qed.

End GraphProperties.

(** * Cards, language and progress *)

Section Presentation.

Lemma score_or_random_present (s : Q) (g : rng) :
  ~ (s == 0)%Q -> score_or_random (Some s) g = (s, g).
Proof.
  intros Hs. unfold score_or_random.
  destruct (Qeq_bool s 0) eqn:E; [|reflexivity].
  apply Qeq_bool_eq in E. contradiction.
Qed.

(** X16. A card never shows the red trust colour for a citation that the
    search-provider adapter has scored, nor for one without a trust score:
    the adapter's score lies above 0.6, and it is the score of the card
    (the random fallback is not drawn); the fallback lies in [0.6, 1). *)
Theorem card_trust_color_is_never_red (c : Citation) (g : rng) :
  in_unit_interval g ->
  trustScore c = None
  \/ (exists index r1 r2 c0,
         (0 <= r2 /\ r2 < 1)%Q /\ c = enhance_citation index r1 r2 c0) ->
  (trustColor (fst (card_scores c g)) = "text-green-400"
   \/ trustColor (fst (card_scores c g)) = "text-yellow-400")
  /\ (trustScore c <> None -> Some (fst (card_scores c g)) = trustScore c).
Proof.
  intros Hg Hc.
  assert (Hcolor : forall t, (0.6 <= t)%Q ->
                     trustColor t = "text-green-400"
                     \/ trustColor t = "text-yellow-400").
  { intros t Ht. unfold trustColor.
    destruct (Qlt_le_dec 0.7 t); [auto|].
    destruct (Qlt_le_dec 0.4 t); [auto|lra]. }
  unfold card_scores.
  destruct Hc as [Hnone|(index & r1 & r2 & c0 & Hr & ->)].
  - rewrite Hnone. cbn [score_or_random]. unfold Math_random.
    destruct (score_or_random (relevanceScore c) (fun n => g (S n))).
    cbn [fst]. split; [|congruence].
    apply Hcolor. destruct (Hg 0%nat). lra.
  - destruct (trustScore_bounds index r1 r2 c0 Hr) as (t & Ht & Hlo & Hhi).
    rewrite Ht. rewrite score_or_random_present by lra.
    destruct (score_or_random
                (relevanceScore (enhance_citation index r1 r2 c0)) g).
    cbn [fst]. split; [apply Hcolor; lra|reflexivity].
Qed.

Variable cyrillic : N -> bool.

(** X17. [detectLanguage] answers "en-US" exactly for the texts that hold a
    Latin letter, however many Cyrillic letters they hold, and "ru-RU" for
    all others, the empty text included: without the [g] flag each count is
    0 or 1, so Cyrillic never outnumbers Latin once a Latin letter occurs. *)
Theorem detectLanguage_is_english_iff_latin_letter (text : list N) :
  (detectLanguage cyrillic text = "en-US" <-> existsb english text = true)
  /\ (detectLanguage cyrillic text = "ru-RU"
      <-> existsb english text = false).
Proof.
  unfold detectLanguage, match_length.
  destruct (existsb english text), (existsb cyrillic text); cbn;
    repeat split; intros H; try reflexivity; discriminate H.
Qed.

Lemma inverse_positive (n : nat) :
  (0 < n)%nat ->
  (0 < / inject_Z (Z.of_nat n)
   /\ inject_Z (Z.of_nat n) * / inject_Z (Z.of_nat n) == 1)%Q.
Proof.
  intros Hn.
  assert (H0 : (0 < inject_Z (Z.of_nat n))%Q).
  { unfold Qlt; cbn. lia. }
  split.
  - apply Qinv_lt_0_compat. exact H0.
  - apply Qmult_inv_r. lra.
Qed.

(** X18. The overall progress stays within (0, 100] and never goes back:
    it grows with the thoughts of a step, reaches the share of the steps
    done at the last thought of a step (100 at the last step), and every
    value of a later step lies above every value of an earlier one. *)
Theorem overallProgress_is_monotone
  (steps i t n : nat) :
  (i < steps)%nat -> (t < n)%nat ->
  (0 < overallProgress steps i t n /\ overallProgress steps i t n <= 100)%Q
  /\ (S t = n ->
      (overallProgress steps i t n
       == (inject_Z (Z.of_nat i) + 1) / inject_Z (Z.of_nat steps) * 100)%Q)
  /\ (S i = steps -> S t = n -> (overallProgress steps i t n == 100)%Q)
  /\ (forall t', (t < t')%nat -> (t' < n)%nat ->
        (overallProgress steps i t n < overallProgress steps i t' n)%Q)
  /\ (forall i' t' n', (i < i')%nat -> (t' < n')%nat ->
        (overallProgress steps i t n < overallProgress steps i' t' n')%Q).
Proof.
  intros Hi Ht.
  destruct (inverse_positive steps ltac:(lia)) as [Hs Hs1].
  destruct (inverse_positive n ltac:(lia)) as [Hn Hn1].
  assert (Hi0 : (0 <= inject_Z (Z.of_nat i))%Q) by (unfold Qle; cbn; lia).
  assert (Hi1 : (inject_Z (Z.of_nat i) + 1 <= inject_Z (Z.of_nat steps))%Q).
  { rewrite <- (inject_Z_plus _ 1). rewrite <- Zle_Qle. lia. }
  assert (Ht0 : (0 <= inject_Z (Z.of_nat t))%Q) by (unfold Qle; cbn; lia).
  assert (Ht1 : (inject_Z (Z.of_nat t) + 1 <= inject_Z (Z.of_nat n))%Q).
  { rewrite <- (inject_Z_plus _ 1). rewrite <- Zle_Qle. lia. }
  unfold overallProgress, Qdiv.
  set (S_ := inject_Z (Z.of_nat steps)) in *.
  set (N_ := inject_Z (Z.of_nat n)) in *.
  set (I_ := inject_Z (Z.of_nat i)) in *.
  set (T_ := inject_Z (Z.of_nat t)) in *.
  assert (Hx0 : (0 < (T_ + 1) * / N_)%Q) by nra.
  assert (Hx1 : ((T_ + 1) * / N_ <= 1)%Q) by nra.
  split; [split; nra|].
  split.
  { intros Hlast.
    assert (HT : (T_ + 1 == N_)%Q).
    { unfold T_, N_. rewrite <- (inject_Z_plus _ 1), <- Hlast.
      rewrite Nat2Z.inj_succ. unfold Z.succ. reflexivity. }
    rewrite HT, Hn1. reflexivity. }
  split.
  { intros Hlasti Hlast.
    assert (HT : (T_ + 1 == N_)%Q).
    { unfold T_, N_. rewrite <- (inject_Z_plus _ 1), <- Hlast.
      rewrite Nat2Z.inj_succ. unfold Z.succ. reflexivity. }
    assert (HI : (I_ + 1 == S_)%Q).
    { unfold I_, S_. rewrite <- (inject_Z_plus _ 1), <- Hlasti.
      rewrite Nat2Z.inj_succ. unfold Z.succ. reflexivity. }
    rewrite HT, Hn1, HI, Hs1. reflexivity. }
  split.
  { intros t' Htt' Ht'.
    assert (Hlt : (T_ < inject_Z (Z.of_nat t'))%Q).
    { unfold T_. rewrite <- Zlt_Qlt. lia. }
    set (T' := inject_Z (Z.of_nat t')) in *.
    assert (Hxx : ((T_ + 1) * / N_ < (T' + 1) * / N_)%Q) by nra.
    set (x := ((T_ + 1) * / N_)%Q) in *.
    set (x' := ((T' + 1) * / N_)%Q) in *.
    assert (Hsum : ((I_ + x) * / S_ < (I_ + x') * / S_)%Q) by nra.
    lra. }
  intros i' t' n' Hii' Ht'.
  destruct (inverse_positive n' ltac:(lia)) as [Hn' Hn1'].
  assert (Hlt : (I_ + 1 <= inject_Z (Z.of_nat i'))%Q).
  { unfold I_. rewrite <- (inject_Z_plus _ 1). rewrite <- Zle_Qle. lia. }
  assert (Ht0' : (0 <= inject_Z (Z.of_nat t'))%Q) by (unfold Qle; cbn; lia).
  set (I' := inject_Z (Z.of_nat i')) in *.
  set (T' := inject_Z (Z.of_nat t')) in *.
  set (N' := inject_Z (Z.of_nat n')) in *.
  assert (Hy0 : (0 < (T' + 1) * / N')%Q) by nra.
  set (x := ((T_ + 1) * / N_)%Q) in *.
  set (y := ((T' + 1) * / N')%Q) in *.
  assert (Hsum : ((I_ + x) * / S_ < (I' + y) * / S_)%Q) by nra.
  lra.
Qed.

End Presentation.

Lemma card_trust_color_is_never_red_witness :
  in_unit_interval (random Fixture.world)
  /\ (trustScore Fixture.ninth = None
      \/ exists index r1 r2 c0,
           (0 <= r2 /\ r2 < 1)%Q
           /\ Fixture.ninth = enhance_citation index r1 r2 c0)
  /\ trustColor (fst (card_scores Fixture.ninth (random Fixture.world)))
     = "text-yellow-400"
  /\ (trustColor (fst (card_scores Fixture.ninth (random Fixture.world)))
      = "text-green-400"
      \/ trustColor (fst (card_scores Fixture.ninth (random Fixture.world)))
         = "text-yellow-400").
Proof.
  assert (H : trustScore Fixture.ninth = None
              \/ exists index r1 r2 c0,
                   (0 <= r2 /\ r2 < 1)%Q
                   /\ Fixture.ninth = enhance_citation index r1 r2 c0).
  { right. exists 8%nat, 0.25, 0.75,
      (Sample.citation (JStr "https://example.org/n")).
    split; [split; [discriminate|reflexivity]|reflexivity]. }
  split; [exact fixture_random_in_unit_interval|].
  split; [exact H|]. split; [reflexivity|].
  apply (card_trust_color_is_never_red Fixture.ninth (random Fixture.world)
           fixture_random_in_unit_interval H).
Defined.

Lemma overallProgress_is_monotone_witness :
  (4 < 5)%nat /\ (5 < 6)%nat
  /\ (0 < overallProgress 5 4 5 6 /\ overallProgress 5 4 5 6 <= 100)%Q
  /\ (overallProgress 5 4 5 6 == 100)%Q
  /\ (overallProgress 5 0 5 6 < overallProgress 5 1 0 6)%Q.
Proof.
  split; [lia|]. split; [lia|].
  split;
    [apply (overallProgress_is_monotone 5 4 5 6); lia|].
  split; reflexivity.
Defined.

(** Three Cyrillic letters and one Latin letter are detected as English. *)
Example detectLanguage_mixed_text :
  existsb Fixture.cyrillic Fixture.mixed_text = true
  /\ detectLanguage Fixture.cyrillic Fixture.mixed_text = "en-US"
  /\ detectLanguage Fixture.cyrillic [] = "ru-RU".
Proof.
  repeat split.
Qed.

(** A step that cannot be converted to a property key makes the lookup
    throw inside the [try]: the answer is the failure response. *)
Lemma unconvertible_step_is_answered_by_error
  (proto : string -> bool) (w : World) (q : value) (prev : History)
  (e : string) :
  truthy q = true ->
  handler proto w (post q (JObj (Thrown e)) prev)
  = mkResponse 500 (BodyError e).
Proof.
  intros Hq. rewrite handler_accepts by assumption. reflexivity.
Qed.
